(** * Matrix factorization tutorial: the notebook's own code, verified

    A shallow embedding of [python/tutorials/matrix_factorization.ipynb]
    (Python 2): the [Batch] container, the [DataIter] loader and batch
    iterator, [get_data], [max_id], [RMSE], [train] and the three network
    builders, followed by the properties claimed about them.

    Conventions.
    - Python exceptions are values of [exn]; a computation that may raise
      has type [result A].
    - A file system is a finite map from file names to file contents.
    - Python [int] is [Z]; Python 2 [/] on ints is floor division.
    - The builtins [int(s)] and [float(s)] are an interface
      ([Conversions]); the loader is verified for every implementation
      of it, and one concrete implementation runs the examples.
    - Float arithmetic is an interface too ([FloatOps]), with a binary64
      instance that runs and a real-number instance in which the
      metric's mathematical meaning is stated. *)

From Stdlib Require Import ZArith QArith Qround Reals Lra Lia Floats Ascii String.
From stdpp Require Import base list strings gmap.

Local Open Scope Z_scope.

(** ** Python values and control *)

Module Py.

Inductive exn : Type :=
| IOError
| ValueError
| IndexError
| ZeroDivisionError.

Inductive result (A : Type) : Type :=
| Ok (a : A)
| Raise (e : exn).
Arguments Ok {A} a.
Arguments Raise {A} e.

Definition bind {A B} (m : result A) (f : A → result B) : result B :=
  match m with
  | Ok a => f a
  | Raise e => Raise e
  end.

(** A conversion that fails raises [ValueError]. *)
Definition value {A} (o : option A) : result A :=
  match o with
  | Some a => Ok a
  | None => Raise ValueError
  end.

(** [for x in xs: acc = body(acc, x)], stopping at the first exception. *)
Fixpoint for_each {A S} (body : S → A → result S) (xs : list A) (acc : S)
  : result S :=
  match xs with
  | [] => Ok acc
  | x :: xs' => bind (body acc x) (for_each body xs')
  end.

Definition len {A} (l : list A) : Z := Z.of_nat (length l).

(** [range(n)]: empty when [n <= 0]. *)
Definition range (n : Z) : list Z := Z.of_nat <$> seq 0 (Z.to_nat n).

(** [l[i]], with Python's negative indices. *)
Definition getitem {A} (l : list A) (i : Z) : result A :=
  let j := if i <? 0 then i + len l else i in
  if j <? 0 then Raise IndexError
  else match l !! Z.to_nat j with
       | Some a => Ok a
       | None => Raise IndexError
       end.

(** [l[i] = v], with Python's negative indices. *)
Definition setitem {A} (l : list A) (i : Z) (v : A) : result (list A) :=
  let j := if i <? 0 then i + len l else i in
  if j <? 0 then Raise IndexError
  else if j <? len l then Ok (<[Z.to_nat j := v]> l)
  else Raise IndexError.

(** [xrange(a, b)]. *)
Definition xrange (a b : Z) : list Z := Z.add a <$> range (b - a).

(** [a / b] on ints (Python 2): floor division. *)
Definition floordiv (a b : Z) : result Z :=
  if b =? 0 then Raise ZeroDivisionError else Ok (a `div` b).

(** [s.strip()]: drop leading and trailing whitespace
    (space, \t, \n, \v, \f, \r). *)
Fixpoint lstrip (s : string) : string :=
  match s with
  | EmptyString => EmptyString
  | String c s' => if Ascii.is_space c then lstrip s' else s
  end.

Definition strip (s : string) : string :=
  String.rev (lstrip (String.rev (lstrip s))).

(** [s.split(sep)] for a one-character separator: always at least one
    field, and [n] separators give [n + 1] fields. *)
Fixpoint split (sep : ascii) (s : string) : list string :=
  match s with
  | EmptyString => [EmptyString]
  | String c s' =>
      if Ascii.eqb c sep then EmptyString :: split sep s'
      else match split sep s' with
           | f :: fs => String c f :: fs
           | [] => [String c EmptyString]
           end
  end.

(** Iterating over a file yields its lines, each with its newline. *)
Fixpoint readlines (content : string) : list string :=
  match content with
  | EmptyString => []
  | String c rest =>
      if Ascii.eqb c "010" then String c EmptyString :: readlines rest
      else match readlines rest with
           | l :: ls => String c l :: ls
           | [] => [String c EmptyString]
           end
  end.

(** [file(fname)]: [IOError] when there is no such file. *)
Definition file (fs : gmap string string) (fname : string)
  : result (list string) :=
  match fs !! fname with
  | Some content => Ok (readlines content)
  | None => Raise IOError
  end.

End Py.
Import Py.

#[global] Instance result_ret : MRet result := @Ok.
#[global] Instance result_bind : MBind result := λ A B f m, Py.bind m f.

Definition TAB : ascii := "009".

(** ** The builtins [int] and [float] on strings *)

Class Conversions := {
  rating : Type;
  py_int : string → option Z;
  py_float : string → option rating;
}.

(** ** Cell 1: the batch container *)

Record NDArray (A : Type) := nd_array { asnumpy : list A }.
Arguments nd_array {A} _.
Arguments asnumpy {A} _.

Definition shape {A} (x : NDArray A) : list Z := [len (asnumpy x)].

Module random.

(** ** The standard library's [random.shuffle]

    [random.shuffle(x)] (Lib/random.py):
    [for i in reversed(xrange(1, len(x))):
       j = int(random() * (i+1)); x[i], x[j] = x[j], x[i]].
    [random()] lies in [0, 1), so [j] is one of [0 .. i]; which one
    is the generator's choice.  The generator is a sequence of draws
    and the number of draws made so far; the draw [a] selects
    [j = a mod (i+1)]. *)
Record RandomState := mkRandom {
  stream : nat → Z;
  position : nat;
}.

Definition random_index (g : RandomState) (i : Z) : Z * RandomState :=
  (stream g (position g) `mod` (i + 1),
   mkRandom (stream g) (S (position g))).

Definition shuffle_body {A} (st : list A * RandomState) (i : Z)
  : result (list A * RandomState) :=
  let '(x, g) := st in
  let '(j, g) := random_index g i in
  xj ← getitem x j;
  xi ← getitem x i;
  x ← setitem x i xj;
  x ← setitem x j xi;
  Ok (x, g).

Definition shuffle {A} (x : list A) (g : RandomState)
  : result (list A * RandomState) :=
  for_each shuffle_body (reverse (xrange 1 (len x))) (x, g).

End random.

Section Loader.
Context {conv : Conversions}.

Record Batch := mkBatch {
  data_names : list string;
  data : list (NDArray Z);
  label_names : list string;
  label : list (NDArray rating);
}.

Definition Batch_provide_data (b : Batch) : list (string * list Z) :=
  (λ '(n, x), (n, shape x)) <$> zip (data_names b) (data b).

Definition Batch_provide_label (b : Batch) : list (string * list Z) :=
  (λ '(n, x), (n, shape x)) <$> zip (label_names b) (label b).

(** ** Cell 2: the data iterator *)

Definition record : Type := Z * Z * rating.

Record DataIter := mkDataIter {
  batch_size : Z;
  self_data : list record;
  provide_data : list (string * list Z);
  provide_label : list (string * list Z);
}.

(** The fields of a line, as the loops of [__init__] and [max_id] see
    them. *)
Definition fields (line : string) : list string :=
  split TAB (strip line).

(** One turn of the loop of [__init__]. *)
Definition init_body (data : list record) (line : string)
  : result (list record) :=
  let tks := fields line in
  if negb (len tks =? 4) then Ok data
  else
    t0 ← getitem tks 0;
    u ← value (py_int t0);
    t1 ← getitem tks 1;
    i ← value (py_int t1);
    t2 ← getitem tks 2;
    r ← value (py_float t2);
    Ok (data ++ [(u, i, r)]).

Definition DataIter_init (fs : gmap string string) (fname : string)
    (batch_size : Z) : result DataIter :=
  lines ← file fs fname;
  data ← for_each init_body lines [];
  Ok {| batch_size := batch_size;
        self_data := data;
        provide_data := [("user", [batch_size]); ("item", [batch_size])];
        provide_label := [("score", [batch_size])] |}.

(** The body of the outer loop of [__iter__]: the batch number [k]. *)
Definition iter_inner (self : DataIter) (k : Z)
    (acc : list Z * list Z * list rating) (i : Z)
  : result (list Z * list Z * list rating) :=
  let '(users, items, scores) := acc in
  let j := k * batch_size self + i in
  '(user, item, score) ← getitem (self_data self) j;
  Ok (users ++ [user], items ++ [item], scores ++ [score]).

Definition iter_batch (self : DataIter) (k : Z) : result Batch :=
  '(users, items, scores) ←
    for_each (iter_inner self k) (range (batch_size self)) ([], [], []);
  let data_all := [nd_array users; nd_array items] in
  let label_all := [nd_array scores] in
  let data_names := ["user"; "item"] in
  let label_names := ["score"] in
  Ok (mkBatch data_names data_all label_names label_all).

(** A generator run to its end: what it yielded, and the exception
    that stopped it, if any. *)
Fixpoint generate {A B} (f : A → result B) (ks : list A)
  : list B * option exn :=
  match ks with
  | [] => ([], None)
  | k :: ks' =>
      match f k with
      | Raise e => ([], Some e)
      | Ok b => let '(bs, e) := generate f ks' in (b :: bs, e)
      end
  end.

Definition DataIter_iter (self : DataIter) : list Batch * option exn :=
  match floordiv (len (self_data self)) (batch_size self) with
  | Raise e => ([], Some e)
  | Ok n => generate (iter_batch self) (range n)
  end.

Definition DataIter_reset (self : DataIter) (g : random.RandomState)
  : result (DataIter * random.RandomState) :=
  '(data, g) ← random.shuffle (self_data self) g;
  Ok ({| batch_size := batch_size self;
         self_data := data;
         provide_data := provide_data self;
         provide_label := provide_label self |}, g).

(** ** Cell 3: [get_data] *)

Definition get_data (fs : gmap string string) (batch_size : Z)
  : result (DataIter * DataIter) :=
  train ← DataIter_init fs "./ml-100k/u1.base" batch_size;
  test ← DataIter_init fs "./ml-100k/u1.test" batch_size;
  Ok (train, test).

(** ** Cell 4: [max_id] *)

Definition max_id_body (st : Z * Z) (line : string) : result (Z * Z) :=
  let '(mu, mi) := st in
  let tks := fields line in
  if negb (len tks =? 4) then Ok (mu, mi)
  else
    t0 ← getitem tks 0;
    u ← value (py_int t0);
    let mu := Z.max mu u in
    t1 ← getitem tks 1;
    i ← value (py_int t1);
    let mi := Z.max mi i in
    Ok (mu, mi).

Definition max_id (fs : gmap string string) (fname : string)
  : result (Z * Z) :=
  let mu := 0 in
  let mi := 0 in
  lines ← file fs fname;
  '(mu, mi) ← for_each max_id_body lines (mu, mi);
  Ok (mu + 1, mi + 1).

End Loader.

(** ** Cell 5: the metric *)

(** Float arithmetic, as [RMSE] uses it. *)
Class FloatOps (F : Type) := {
  fzero : F;
  fone : F;
  fadd : F → F → F;
  fsub : F → F → F;
  fmul : F → F → F;
  fdiv : F → F → F;
  fsqrt : F → F;
  fis_zero : F → bool;
  fis_neg : F → bool;
}.

(** An array of any rank, and [a.flatten()]: its elements in row-major
    order. *)
#[warnings="-register-all"]
Inductive ndarray (F : Type) : Type :=
| scalar (x : F)
| array (items : list (ndarray F)).
Arguments scalar {F} x.
Arguments array {F} items.

Fixpoint flatten {F} (a : ndarray F) : list F :=
  match a with
  | scalar x => [x]
  | array items =>
      (fix go (l : list (ndarray F)) : list F :=
         match l with
         | [] => []
         | b :: l' => flatten b ++ go l'
         end) items
  end.

Section Metric.
Context {F : Type} {ops : FloatOps F}.

(** [x / y] on floats. *)
Definition truediv (x y : F) : result F :=
  if fis_zero y then Raise ZeroDivisionError else Ok (fdiv x y).

(** [math.sqrt(x)]. *)
Definition math_sqrt (x : F) : result F :=
  if fis_neg x then Raise ValueError else Ok (fsqrt x).

Definition RMSE_body (label pred : list F) (st : F * F) (i : Z)
  : result (F * F) :=
  let '(ret, n) := st in
  l1 ← getitem label i;
  p1 ← getitem pred i;
  l2 ← getitem label i;
  p2 ← getitem pred i;
  let ret := fadd ret (fmul (fsub l1 p1) (fsub l2 p2)) in
  let n := fadd n fone in
  Ok (ret, n).

Definition RMSE (label : list F) (pred : ndarray F) : result F :=
  let ret := fzero in
  let n := fzero in
  let pred := flatten pred in
  '(ret, n) ← for_each (RMSE_body label pred) (range (len label)) (ret, n);
  q ← truediv ret n;
  math_sqrt q.

End Metric.

(** ** The symbolic graph API, as the notebook uses it

    A symbol is the expression that built it.  The framework also gives
    every node a generated name; names play no part in what follows. *)

Inductive Symbol : Type :=
| sym_Variable (name : string)
| Embedding (data : Symbol) (input_dim output_dim : Z)
| Activation (data : Symbol) (act_type : string)
| FullyConnected (data : Symbol) (num_hidden : Z)
| Dropout (data : Symbol) (p : Q)
| sym_mul (lhs rhs : Symbol)
| sum_axis (data : Symbol) (axis : Z)
| Flatten (data : Symbol)
| LinearRegressionOutput (data label : Symbol).

(** ** Cell 6: [train]

    [FeedForward.fit] is the framework's training loop; [train] is
    modelled up to the call it makes. *)

Inductive Context_ : Type := gpu (dev_id : Z).

Record FeedForward := mkFeedForward {
  ctx : Context_;
  symbol : Symbol;
  num_epoch : Z;
  learning_rate : Q;
  wd : Q;
  momentum : Q;
}.

Record Speedometer := mkSpeedometer {
  speedometer_batch_size : Z;
  frequent : Z;
}.

Inductive Metric : Type := metric_RMSE.

Section Train.
Context {conv : Conversions}.

Record FitCall := mkFitCall {
  fit_model : FeedForward;
  fit_X : DataIter;
  fit_eval_data : DataIter;
  fit_eval_metric : Metric;
  fit_batch_end_callback : Speedometer;
}.

Definition train (fs : gmap string string) (network : Symbol)
    (batch_size num_epoch : Z) (learning_rate : Q) : result FitCall :=
  let model := {| ctx := gpu 0;
                  symbol := network;
                  num_epoch := num_epoch;
                  learning_rate := learning_rate;
                  wd := 1 # 10000;
                  momentum := 9 # 10 |} in
  let batch_size := 64 in
  '(train, test) ← get_data fs batch_size;
  freq ← floordiv 20000 batch_size;
  Ok {| fit_model := model;
        fit_X := train;
        fit_eval_data := test;
        fit_eval_metric := metric_RMSE;
        fit_batch_end_callback := mkSpeedometer batch_size freq |}.

End Train.

(** ** Cells 7 to 9: the networks *)

Section Networks.
(** [max_user, max_item = max_id('./ml-100k/u.data')] *)
Variables max_user max_item : Z.

Definition plain_net (k : Z) : Symbol :=
  let user := sym_Variable "user" in
  let item := sym_Variable "item" in
  let score := sym_Variable "score" in
  let user := Embedding user max_user k in
  let item := Embedding item max_item k in
  let pred := sym_mul user item in
  let pred := sum_axis pred 1 in
  let pred := Flatten pred in
  let pred := LinearRegressionOutput pred score in
  pred.

Definition get_one_layer_mlp (hidden k : Z) : Symbol :=
  let user := sym_Variable "user" in
  let item := sym_Variable "item" in
  let score := sym_Variable "score" in
  let user := Embedding user max_user k in
  let user := Activation user "relu" in
  let user := FullyConnected user hidden in
  let item := Embedding item max_item k in
  let item := Activation item "relu" in
  let item := FullyConnected item hidden in
  let pred := sym_mul user item in
  let pred := sum_axis pred 1 in
  let pred := Flatten pred in
  let pred := LinearRegressionOutput pred score in
  pred.

Definition get_one_layer_dropout_mlp (hidden k : Z) : Symbol :=
  let user := sym_Variable "user" in
  let item := sym_Variable "item" in
  let score := sym_Variable "score" in
  let user := Embedding user max_user k in
  let user := Activation user "relu" in
  let user := FullyConnected user hidden in
  let user := Dropout user (1 # 2) in
  let item := Embedding item max_item k in
  let item := Activation item "relu" in
  let item := FullyConnected item hidden in
  let item := Dropout item (1 # 2) in
  let pred := sym_mul user item in
  let pred := sum_axis pred 1 in
  let pred := Flatten pred in
  let pred := LinearRegressionOutput pred score in
  pred.

(** The network-definition functions of the notebook, by name, in the
    order of their cells. *)
Inductive builder : Type :=
| builder1 (f : Z → Symbol)
| builder2 (f : Z → Z → Symbol).

Definition network_definitions : list (string * builder) :=
  [("plain_net", builder1 plain_net);
   ("get_one_layer_mlp", builder2 get_one_layer_mlp);
   ("get_one_layer_dropout_mlp", builder2 get_one_layer_dropout_mlp)].

End Networks.

(** *** Comparing networks *)

(** The graph without its dropout nodes. *)
Fixpoint without_dropout (s : Symbol) : Symbol :=
  match s with
  | sym_Variable n => sym_Variable n
  | Embedding d i o => Embedding (without_dropout d) i o
  | Activation d a => Activation (without_dropout d) a
  | FullyConnected d h => FullyConnected (without_dropout d) h
  | Dropout d _ => without_dropout d
  | sym_mul a b => sym_mul (without_dropout a) (without_dropout b)
  | sum_axis d ax => sum_axis (without_dropout d) ax
  | Flatten d => Flatten (without_dropout d)
  | LinearRegressionOutput d l =>
      LinearRegressionOutput (without_dropout d) (without_dropout l)
  end.

(** The graph without its hidden layers: a layer is a fully connected
    node together with the activation that feeds it. *)
Fixpoint without_layers (s : Symbol) : Symbol :=
  match s with
  | sym_Variable n => sym_Variable n
  | Embedding d i o => Embedding (without_layers d) i o
  | Activation d a => Activation (without_layers d) a
  | FullyConnected (Activation d _) _ => without_layers d
  | FullyConnected d _ => without_layers d
  | Dropout d p => Dropout (without_layers d) p
  | sym_mul a b => sym_mul (without_layers a) (without_layers b)
  | sum_axis d ax => sum_axis (without_layers d) ax
  | Flatten d => Flatten (without_layers d)
  | LinearRegressionOutput d l =>
      LinearRegressionOutput (without_layers d) (without_layers l)
  end.

(** Hidden layers and dropout nodes on the path that feeds [data]. *)
Fixpoint depth (s : Symbol) : nat :=
  match s with
  | sym_Variable _ => 0
  | Embedding d _ _ | Activation d _ | Dropout d _ | sum_axis d _
  | Flatten d => depth d
  | FullyConnected d _ => S (depth d)
  | sym_mul a b => Nat.max (depth a) (depth b)
  | LinearRegressionOutput d _ => depth d
  end.

Fixpoint dropouts (s : Symbol) : nat :=
  match s with
  | sym_Variable _ => 0
  | Embedding d _ _ | Activation d _ | FullyConnected d _ | sum_axis d _
  | Flatten d => dropouts d
  | Dropout d _ => S (dropouts d)
  | sym_mul a b => dropouts a + dropouts b
  | LinearRegressionOutput d l => dropouts d + dropouts l
  end.

(** *** Forward evaluation

    What a bound network computes at prediction time, operator by
    operator, after the framework's documentation: [Embedding] looks
    rows up in its weight matrix, [*] multiplies elementwise,
    [sum_axis] sums along an axis, [Flatten] makes its input
    two-dimensional, [FullyConnected] is [x W^T + b], [Dropout] and
    [LinearRegressionOutput] pass their data through (the first is
    active only while training, the second uses its label only for the
    gradient).  Learned parameters are looked up by the node that owns
    them. *)

Inductive tensor (F : Type) : Type :=
| t_ids (v : list Z)
| t_vec (v : list F)
| t_mat (m : list (list F)).
Arguments t_ids {F} v.
Arguments t_vec {F} v.
Arguments t_mat {F} m.

Record Params (F : Type) := mkParams {
  weight : Symbol → list (list F);
  bias : Symbol → list F;
}.
Arguments weight {F} _ _.
Arguments bias {F} _ _.

Section Forward.
Context {F : Type} {ops : FloatOps F}.

Definition fsum (v : list F) : F := foldl fadd fzero v.

Definition relu (x : F) : F := if fis_neg x then fzero else x.

Definition has_shape (m : list (list F)) (rows cols : Z) : bool :=
  (len m =? rows) && forallb (λ r, len r =? cols) m.

Definition same_shape (x y : list (list F)) : bool :=
  bool_decide (length <$> x = length <$> y).

Definition lookup_row (W : list (list F)) (i : Z) : option (list F) :=
  if i <? 0 then None else W !! Z.to_nat i.

Definition columns_sum (m : list (list F)) : list F :=
  match m with
  | [] => []
  | r :: rs => foldl (zip_with fadd) r rs
  end.

Fixpoint forward (env : string → option (tensor F)) (P : Params F)
    (s : Symbol) : option (tensor F) :=
  match s with
  | sym_Variable name => env name
  | Embedding data input_dim output_dim =>
      match forward env P data with
      | Some (t_ids v) =>
          let W := weight P s in
          if has_shape W input_dim output_dim
          then t_mat <$> mapM (lookup_row W) v
          else None
      | _ => None
      end
  | Activation data act_type =>
      if String.eqb act_type "relu" then
        match forward env P data with
        | Some (t_mat m) => Some (t_mat ((λ r : list F, relu <$> r) <$> m))
        | Some (t_vec v) => Some (t_vec (relu <$> v))
        | _ => None
        end
      else None
  | FullyConnected data num_hidden =>
      match forward env P data with
      | Some (t_mat x) =>
          let W := weight P s in
          let b := bias P s in
          if (len W =? num_hidden) && (len b =? num_hidden)
             && forallb (λ r, forallb (λ w, len w =? len r) W) x
          then Some (t_mat ((λ r : list F, zip_with fadd
                                    ((λ w : list F, fsum (zip_with fmul r w)) <$> W)
                                    b) <$> x))
          else None
      | _ => None
      end
  | Dropout data _ => forward env P data
  | sym_mul lhs rhs =>
      match forward env P lhs, forward env P rhs with
      | Some (t_mat x), Some (t_mat y) =>
          if same_shape x y
          then Some (t_mat (zip_with (zip_with fmul) x y))
          else None
      | Some (t_vec x), Some (t_vec y) =>
          if bool_decide (length x = length y)
          then Some (t_vec (zip_with fmul x y))
          else None
      | _, _ => None
      end
  | sum_axis data axis =>
      match forward env P data with
      | Some (t_mat m) =>
          if axis =? 1 then Some (t_vec (fsum <$> m))
          else if axis =? 0 then Some (t_vec (columns_sum m))
          else None
      | Some (t_vec v) =>
          if axis =? 0 then Some (t_vec [fsum v]) else None
      | _ => None
      end
  | Flatten data =>
      match forward env P data with
      | Some (t_mat m) => Some (t_mat m)
      | Some (t_vec v) => Some (t_mat ((λ x : F, [x]) <$> v))
      | _ => None
      end
  | LinearRegressionOutput data _ => forward env P data
  end.

(** The dot product of two vectors. *)
Definition dot (u v : list F) : F := fsum (zip_with fmul u v).

End Forward.

(** ** Arithmetic: binary64, and the real numbers *)

#[global] Instance binary64 : FloatOps float := {|
  fzero := 0%float;
  fone := 1%float;
  fadd := PrimFloat.add;
  fsub := PrimFloat.sub;
  fmul := PrimFloat.mul;
  fdiv := PrimFloat.div;
  fsqrt := PrimFloat.sqrt;
  fis_zero := λ x, PrimFloat.eqb x 0%float;
  fis_neg := λ x, PrimFloat.ltb x 0%float;
|}.

#[global] Instance R_eq_dec : EqDecision R := Req_dec_T.
#[global] Instance R_lt_dec : RelDecision Rlt := Rlt_dec.

#[global] Instance real_numbers : FloatOps R := {|
  fzero := 0%R;
  fone := 1%R;
  fadd := Rplus;
  fsub := Rminus;
  fmul := Rmult;
  fdiv := Rdiv;
  fsqrt := R_sqrt.sqrt;
  fis_zero := λ x, bool_decide (x = 0%R);
  fis_neg := λ x, bool_decide (x < 0)%R;
|}.

(** The root-mean-square error, as mathematics has it. *)
Definition sum_R (l : list R) : R := foldr Rplus 0%R l.

Definition mean (l : list R) : R := (sum_R l / INR (length l))%R.

Definition squared_errors (label pred : list R) : list R :=
  zip_with (λ l p, ((l - p) ^ 2)%R) label pred.

Definition root_mean_square_error (label pred : list R) : R :=
  R_sqrt.sqrt (mean (squared_errors label pred)).

(** ** Plain decimal literals

    An implementation of [Conversions] for the literals the data files
    are made of: an optional sign and decimal digits for [int], the same
    with an optional fraction for [float], whitespace around them
    ignored; everything else is refused.  Ratings are read exactly, as
    rationals. *)

Fixpoint digits_value (s : string) (acc : Z) : option Z :=
  match s with
  | EmptyString => Some acc
  | String c s' =>
      match Ascii.is_nat c with
      | Some d => digits_value s' (10 * acc + Z.of_nat d)
      | None => None
      end
  end.

Definition unsigned_literal (s : string) : option Z :=
  match s with
  | EmptyString => None
  | _ => digits_value s 0
  end.

Definition signed {A} (neg : A → A) (body : string → option A)
    (s : string) : option A :=
  match s with
  | String "+"%char s' => body s'
  | String "-"%char s' => neg <$> body s'
  | _ => body s
  end.

Definition int_literal (s : string) : option Z :=
  signed Z.opp unsigned_literal (strip s).

Definition decimal_body (s : string) : option Q :=
  match split "."%char s with
  | [i] => inject_Z <$> unsigned_literal i
  | [i; f] =>
      n ← unsigned_literal (i +:+ f);
      Some (Qmake n (Z.to_pos (10 ^ Z.of_nat (String.length f))))
  | _ => None
  end.

Definition float_literal (s : string) : option Q :=
  signed Qopp decimal_body (strip s).

Definition decimal_literals : Conversions := {|
  rating := Q;
  py_int := int_literal;
  py_float := float_literal;
|}.

(** Building test files: ["\t".join(fields) + "\n"]. *)
Definition NL : string := String "010" EmptyString.

Fixpoint join (sep : string) (l : list string) : string :=
  match l with
  | [] => EmptyString
  | [x] => x
  | x :: l' => x +:+ sep +:+ join sep l'
  end.

Definition row (l : list string) : string :=
  join (String TAB EmptyString) l +:+ NL.

(** ** Vocabulary of the statements *)

Section Vocabulary.
Context {conv : Conversions}.

(** The batch made of the records [chunk]: their users, their items,
    their scores. *)
Definition batch_of (chunk : list record) : Batch :=
  mkBatch ["user"; "item"]
          [nd_array (chunk.*1.*1); nd_array (chunk.*1.*2)]
          ["score"]
          [nd_array (chunk.*2)].

(** [l[a : a + n]] *)
Definition slice {A} (l : list A) (a n : nat) : list A :=
  take n (drop a l).

(** The lines the loops of [__init__] and [max_id] do not skip, as
    their fields. *)
Definition kept (lines : list string) : list (list string) :=
  filter (λ tks, length tks = 4%nat) (fields <$> lines).

(** The triple a kept line stands for. *)
Definition parse_record (tks : list string) : option record :=
  match tks with
  | [f0; f1; f2; _] =>
      u ← py_int f0; i ← py_int f1; r ← py_float f2; Some (u, i, r)
  | _ => None
  end.

(** The ids [max_id] reads from a kept line. *)
Definition parse_ids (tks : list string) : option (Z * Z) :=
  match tks with
  | [f0; f1; _; _] => u ← py_int f0; i ← py_int f1; Some (u, i)
  | _ => None
  end.

(** A line that is a (user id, item id, rating, timestamp) record. *)
Definition valid_record (line : string) : Prop :=
  ∃ f0 f1 f2 f3,
    fields line = [f0; f1; f2; f3]
    ∧ is_Some (py_int f0) ∧ is_Some (py_int f1)
    ∧ is_Some (py_float f2) ∧ is_Some (py_int f3).

End Vocabulary.

(** The largest of 0 and the elements of [l]. *)
Definition maximum (l : list Z) : Z := foldr Z.max 0 l.

(** ** Sample files *)

Module Samples.

(** The first lines of the MovieLens file. *)
Definition u_data : string :=
  row ["196"; "242"; "3"; "881250949"]
  +:+ row ["186"; "302"; "3"; "891717742"]
  +:+ NL
  +:+ row ["22"; "377"; "1"; "878887116"]
  +:+ row ["244"; "51"; "2"]
  +:+ row ["166"; "346"; "1"; "886397596"].

Definition files : gmap string string :=
  {[ "./ml-100k/u.data" := u_data;
     "./ml-100k/u1.base" := u_data;
     "./ml-100k/u1.test" := row ["1"; "6"; "5"; "887431973"] ]}.

Definition records : list (@record decimal_literals) :=
  [(196, 242, 3%Q); (186, 302, 3%Q); (22, 377, 1%Q); (166, 346, 1%Q)].

(** Five records, to be read two at a time. *)
Definition loaded : @DataIter decimal_literals :=
  {| batch_size := 2;
     self_data := records ++ [(1, 6, 5%Q)];
     provide_data := [("user", [2]); ("item", [2])];
     provide_label := [("score", [2])] |}.

(** Four fields that are not numbers. *)
Definition garbled : gmap string string :=
  {[ "u.data" := row ["a"; "b"; "c"; "d"] ]}.

(** A row whose last column is empty. *)
Definition trailing_tab : gmap string string :=
  {[ "u.data" := row ["1"; "2"; "3"; ""] ]}.

(** A row that starts with an empty column. *)
Definition leading_tab : gmap string string :=
  {[ "u.data" := row [""; "1"; "2"; "3"; "4"] ]}.

(** Ids below zero. *)
Definition negative_ids : gmap string string :=
  {[ "u.data" := row ["-5"; "-7"; "1"; "0"] ]}.

(** A two-user, one-item model with embeddings of dimension 2, on
    binary64. *)
Definition inputs (name : string) : option (tensor float) :=
  if String.eqb name "user" then Some (t_ids [1; 0])
  else if String.eqb name "item" then Some (t_ids [0; 0])
  else None.

Definition embeddings : Params float :=
  mkParams float
    (λ s, match s with
          | Embedding (sym_Variable "user") _ _ => [[1; 2]; [3; 4]]%float
          | _ => [[5; 6]]%float
          end)
    (λ _, []).

End Samples.

(** ** Vocabulary of the further properties *)

Section Storage.
Context {conv : Conversions} {I X : Type}.

(** What the arrays of a batch hold.  [mx.nd.array] converts each
    element of the list it is given to the element type of the array
    (float32); [asnumpy] above is the list the array was made from, and
    the two conversions, one for ids and one for ratings, are
    parameters. *)
Variables (store_id : Z → I) (store_rating : rating → X).

Definition stored (r : record) : I * I * X :=
  (store_id r.1.1, store_id r.1.2, store_rating r.2).

Definition stored_records (b : Batch) : list (I * I * X) :=
  match data b, label b with
  | [users; items], [scores] =>
      zip (zip (store_id <$> asnumpy users) (store_id <$> asnumpy items))
          (store_rating <$> asnumpy scores)
  | _, _ => []
  end.

End Storage.

(** An integer rounded to float32: 24 significant bits, to nearest,
    ties to even (below the overflow threshold). *)
Definition float32_of_Z (z : Z) : Z :=
  let a := Z.abs z in
  if a <? 2 ^ 24 then z
  else
    let e := Z.log2 a - 23 in
    let q := a `div` 2 ^ e in
    let r := a `mod` 2 ^ e in
    let half := 2 ^ (e - 1) in
    let q := if (half <? r) || ((r =? half) && Z.odd q) then q + 1 else q in
    Z.sgn z * (q * 2 ^ e).

Section MetricVocabulary.
Context {F : Type} {ops : FloatOps F}.

(** The squared errors and the count, in the arithmetic of the code:
    each product and each sum is one operation of [ops], rounded as
    [ops] rounds it. *)
Definition float_squared_errors (label pred : list F) : list F :=
  zip_with (λ l p, fmul (fsub l p) (fsub l p)) label pred.

Definition float_count {A} (l : list A) : F :=
  foldl (λ n _, fadd n fone) fzero l.

End MetricVocabulary.

Section Loading.
Context {conv : Conversions}.

(** A file that exists and whose kept lines all convert. *)
Definition loads (fs : gmap string string) (fname : string) : Prop :=
  ∃ content,
    fs !! fname = Some content
    ∧ Forall (λ tks, is_Some (parse_record tks)) (kept (readlines content)).

End Loading.

(** A string of whitespace only. *)
Fixpoint all_space (s : string) : bool :=
  match s with
  | EmptyString => true
  | String c s' => Ascii.is_space c && all_space s'
  end.

(** The variables a symbol is built from, left to right. *)
Fixpoint variables (s : Symbol) : list string :=
  match s with
  | sym_Variable name => [name]
  | Embedding d _ _ | Activation d _ | FullyConnected d _ | Dropout d _
  | sum_axis d _ | Flatten d => variables d
  | sym_mul a b => variables a ++ variables b
  | LinearRegressionOutput d l => variables d ++ variables l
  end.

(** A text made of whole lines: empty, or ending in a newline. *)
Definition whole_lines (p : string) : Prop :=
  p = EmptyString ∨ ∃ c, p = c +:+ NL.

Section Layers.
Context {F : Type} {ops : FloatOps F}.

(** One row through a fully connected layer: [W r + b]. *)
Definition fully_connected (W : list (list F)) (b : list F) (r : list F)
  : list F :=
  zip_with fadd ((λ w : list F, fsum (zip_with fmul r w)) <$> W) b.

(** One row through the hidden layer of [get_one_layer_mlp]. *)
Definition hidden_layer (W : list (list F)) (b : list F) (r : list F)
  : list F :=
  fully_connected W b (relu <$> r).

End Layers.

(** [d[name]] in a list of named values. *)
Fixpoint assoc {A} (name : string) (l : list (string * A)) : option A :=
  match l with
  | [] => None
  | (n, x) :: l' => if String.eqb n name then Some x else assoc name l'
  end.

Section Feeding.
Context {conv : Conversions} {F : Type}.

(** Binding a batch to a network: each data array goes to the variable
    of its name, with the ids as the array stores them ([store] is the
    conversion to the element type of the array). *)
Definition feed (store : Z → Z) (b : Batch) (name : string)
  : option (tensor F) :=
  (λ x, t_ids (store <$> asnumpy x))
  <$> assoc name (zip (data_names b) (data b)).

End Feeding.

Module MoreSamples.

(** Two files and their concatenation. *)
Definition first_part : string :=
  row ["196"; "242"; "3"; "881250949"] +:+ row ["7"; "9"].

Definition second_part : string :=
  row ["22"; "377"; "1"; "878887116"].

Definition files : gmap string string :=
  {[ "a" := first_part; "b" := second_part;
     "ab" := first_part +:+ second_part;
     "a b" := first_part +:+ (("  " +:+ NL +:+ " ") +:+ NL) +:+ second_part ]}.

(** A one-hidden-layer model: two users, one item, embeddings of
    dimension 2, hidden layers of width 1, on binary64. *)
Definition mlp_parameters : Params float :=
  mkParams float
    (λ s, match s with
          | Embedding (sym_Variable "user") _ _ => [[1; -2]; [3; 4]]%float
          | Embedding _ _ _ => [[5; 6]]%float
          | _ => [[1; 1]]%float
          end)
    (λ _, [1]%float).

(** Embedding matrices of the sizes [max_id] gives on the sample
    file. *)
Definition sized_embeddings : Params float :=
  mkParams float
    (λ s, match s with
          | Embedding (sym_Variable "user") _ _ => replicate 197 [1; 2]%float
          | _ => replicate 378 [3; 4]%float
          end)
    (λ _, []).

(** Four records, to be read two at a time. *)
Definition even : @DataIter decimal_literals :=
  {| batch_size := 2;
     self_data := Samples.records;
     provide_data := [("user", [2]); ("item", [2])];
     provide_label := [("score", [2])] |}.

(** A generator, and the two iterators above after [reset]. *)
Definition generator : random.RandomState :=
  random.mkRandom (λ n, Z.of_nat n * 7 + 3) 0.

Definition after_reset (self : @DataIter decimal_literals)
  : @DataIter decimal_literals :=
  match DataIter_reset self generator with
  | Ok (self', _) => self'
  | Raise _ => self
  end.

End MoreSamples.

(** * Properties *)

(** ** Python primitives *)

Section PyFacts.
Context {A : Type}.
Implicit Types (l : list A) (i : nat).

Lemma getitem_nat l i a :
  l !! i = Some a → getitem l (Z.of_nat i) = Ok a.
Proof.
  intros H. unfold getitem.
  destruct (Z.ltb_spec (Z.of_nat i) 0) as [?|_]; [lia|].
  destruct (Z.ltb_spec (Z.of_nat i) 0) as [?|_]; [lia|].
  by rewrite Nat2Z.id, H.
Qed.

Lemma getitem_nat_None l i :
  l !! i = None → getitem l (Z.of_nat i) = Raise IndexError.
Proof.
  intros H. unfold getitem.
  destruct (Z.ltb_spec (Z.of_nat i) 0) as [?|_]; [lia|].
  destruct (Z.ltb_spec (Z.of_nat i) 0) as [?|_]; [lia|].
  by rewrite Nat2Z.id, H.
Qed.

Lemma setitem_nat l i (v : A) :
  (i < length l)%nat → setitem l (Z.of_nat i) v = Ok (<[i := v]> l).
Proof.
  intros H. unfold setitem, len.
  destruct (Z.ltb_spec (Z.of_nat i) 0) as [?|_]; [lia|].
  destruct (Z.ltb_spec (Z.of_nat i) 0) as [?|_]; [lia|].
  destruct (Z.ltb_spec (Z.of_nat i) (Z.of_nat (length l))) as [_|?]; [|lia].
  by rewrite Nat2Z.id.
Qed.

Lemma range_of_nat (n : nat) : range (Z.of_nat n) = Z.of_nat <$> seq 0 n.
Proof. unfold range. by rewrite Nat2Z.id. Qed.

Lemma range_nonpos (n : Z) : n ≤ 0 → range n = [].
Proof.
  intros H. unfold range.
  by replace (Z.to_nat n) with 0%nat by lia.
Qed.

(** A loop whose every turn succeeds and keeps an invariant succeeds
    and ends in the invariant. *)
Lemma for_each_invariant {S} (Inv : S → Prop) (P : A → Prop)
    (body : S → A → result S) (xs : list A) (acc : S) :
  Forall P xs →
  (∀ s x, Inv s → P x → ∃ s', body s x = Ok s' ∧ Inv s') →
  Inv acc →
  ∃ s', for_each body xs acc = Ok s' ∧ Inv s'.
Proof.
  intros Hxs Hbody. revert acc.
  induction Hxs as [|x xs Hx _ IH]; intros acc Hacc; simpl.
  - eauto.
  - destruct (Hbody acc x Hacc Hx) as (s' & -> & Hs'). simpl. eauto.
Qed.

Lemma generate_ok {B} (f : A → result B) (g : A → B) (ks : list A) :
  Forall (λ k, f k = Ok (g k)) ks →
  generate f ks = (g <$> ks, None).
Proof.
  induction 1 as [|k ks Hk _ IH]; simpl; [done|].
  by rewrite Hk, IH.
Qed.

End PyFacts.

(** ** The batch iterator *)

Section Iterator.
Context {conv : Conversions}.
Implicit Types (self : DataIter) (k a m : nat).

Lemma iter_inner_loop self (bs k : nat) m a us its ss :
  batch_size self = Z.of_nat bs →
  (k * bs + a + m ≤ length (self_data self))%nat →
  for_each (iter_inner self (Z.of_nat k)) (Z.of_nat <$> seq a m)
           (us, its, ss)
  = let chunk := slice (self_data self) (k * bs + a) m in
    Ok (us ++ chunk.*1.*1, its ++ chunk.*1.*2, ss ++ chunk.*2).
Proof.
  intros Hbs. revert a us its ss.
  induction m as [|m IH]; intros a us its ss Hlen; simpl.
  - by rewrite !app_nil_r.
  - destruct (lookup_lt_is_Some_2 (self_data self) (k * bs + a)%nat)
      as [[[u i] r] Hr]; [lia|].
    rewrite Hbs.
    replace (Z.of_nat k * Z.of_nat bs + Z.of_nat a)
      with (Z.of_nat (k * bs + a)) by lia.
    rewrite (getitem_nat _ _ _ Hr). simpl.
    rewrite IH by lia. simpl. unfold slice.
    rewrite (drop_S _ _ _ Hr). simpl.
    replace (S (k * bs + a)) with (k * bs + S a)%nat by lia.
    by rewrite <- !app_assoc.
Qed.

Lemma iter_batch_slice self (bs k : nat) :
  batch_size self = Z.of_nat bs →
  (k * bs + bs ≤ length (self_data self))%nat →
  iter_batch self (Z.of_nat k)
  = Ok (batch_of (slice (self_data self) (k * bs) bs)).
Proof.
  intros Hbs Hlen. unfold iter_batch.
  rewrite Hbs at 1. rewrite range_of_nat.
  rewrite (iter_inner_loop self bs k bs 0) by (done || lia).
  simpl. by rewrite Nat.add_0_r.
Qed.

Lemma slices_join {A} (l : list A) (bs n : nat) :
  (n * bs ≤ length l)%nat →
  mjoin ((λ k, slice l (k * bs) bs) <$> seq 0 n) = take (n * bs) l.
Proof.
  induction n as [|n IH]; intros Hn; [done|].
  rewrite seq_S, fmap_app, join_app. simpl.
  rewrite IH by lia. rewrite app_nil_r. unfold slice.
  rewrite take_take_drop. f_equal. lia.
Qed.

(** [C1] For every loaded dataset and every positive batch size, one
    pass of [__iter__] ends normally after yielding
    [len(data) / batch_size] batches (floor division); the [k]-th
    batch holds the users, the items and the scores of the
    [batch_size] consecutive records at positions [k * batch_size] to
    [k * batch_size + batch_size - 1], in order; together the batches
    are the first [n * batch_size] records, so the records past the
    last full multiple of [batch_size] are not yielded. *)
Theorem DataIter_iter_full_batches self :
  0 < batch_size self →
  let bs := Z.to_nat (batch_size self) in
  let n := Z.to_nat (len (self_data self) `div` batch_size self) in
  let chunks := (λ k, slice (self_data self) (k * bs) bs) <$> seq 0 n in
  DataIter_iter self = (batch_of <$> chunks, None)
  ∧ length chunks = n
  ∧ (∀ k chunk, chunks !! k = Some chunk →
       length chunk = bs
       ∧ length (chunk.*1.*1) = bs
       ∧ length (chunk.*1.*2) = bs
       ∧ length (chunk.*2) = bs
       ∧ ∀ i, (i < bs)%nat →
           chunk !! i = self_data self !! (k * bs + i)%nat)
  ∧ mjoin chunks = take (n * bs) (self_data self).
Proof.
  intros Hpos bs n chunks.
  assert (Hbs : batch_size self = Z.of_nat bs) by (unfold bs; lia).
  assert (Hn : (n * bs ≤ length (self_data self))%nat).
  { unfold n, len. rewrite Hbs.
    rewrite <- Nat2Z.inj_div, Nat2Z.id.
    rewrite Nat.mul_comm. apply Nat.Div0.mul_div_le. }
  assert (Hk : ∀ k, (k < n)%nat →
               (k * bs + bs ≤ length (self_data self))%nat) by nia.
  split; [|split; [|split]].
  - unfold DataIter_iter, floordiv.
    destruct (Z.eqb_spec (batch_size self) 0) as [?|_]; [lia|].
    rewrite <- (Z2Nat.id (_ `div` _))
      by (apply Z.div_pos; unfold len; lia).
    fold n. rewrite range_of_nat. unfold chunks.
    rewrite (generate_ok _ (λ z, batch_of (slice (self_data self)
                                   (Z.to_nat z * bs) bs))).
    + rewrite <- !list_fmap_compose. f_equal.
      apply list_fmap_ext. intros _ k _. simpl. by rewrite Nat2Z.id.
    + apply Forall_fmap, Forall_forall. intros k Hin.
      apply list_elem_of_In, in_seq in Hin. simpl.
      rewrite Nat2Z.id. apply iter_batch_slice; [done|]. apply Hk. lia.
  - unfold chunks. by rewrite length_fmap, length_seq.
  - intros k chunk H. unfold chunks in H.
    rewrite list_lookup_fmap in H.
    destruct (seq 0 n !! k) as [k'|] eqn:Hk'; [|done].
    apply lookup_seq in Hk' as [-> Hlt]. simpl in H.
    injection H as <-. specialize (Hk k Hlt).
    assert (Hlen : length (slice (self_data self) (k * bs) bs) = bs).
    { unfold slice. rewrite length_take, length_drop. lia. }
    rewrite !length_fmap. repeat split; try done.
    intros i Hi. unfold slice.
    rewrite lookup_take_lt by done. by rewrite lookup_drop.
  - by apply slices_join.
Qed.

End Iterator.

Lemma DataIter_iter_full_batches_witness :
  DataIter_iter Samples.loaded
  = ([@mkBatch decimal_literals ["user"; "item"]
        [nd_array [196; 186]; nd_array [242; 302]]
        ["score"] [nd_array [3%Q; 3%Q]];
      @mkBatch decimal_literals ["user"; "item"]
        [nd_array [22; 166]; nd_array [377; 346]]
        ["score"] [nd_array [1%Q; 1%Q]]],
     None).
Proof.
  exact (proj1 (DataIter_iter_full_batches Samples.loaded eq_refl)).
Defined.

(** A batch size of zero stops the pass at once; a negative one yields
    nothing. *)
Example DataIter_iter_zero :
  DataIter_iter (@mkDataIter decimal_literals 0 Samples.records [] [])
  = ([], Some ZeroDivisionError).
Proof. reflexivity. Qed.

Example DataIter_iter_negative :
  DataIter_iter (@mkDataIter decimal_literals (-2) Samples.records [] [])
  = ([], None).
Proof. reflexivity. Qed.

(** ** Shuffling *)

Section Shuffle.
Context {A : Type}.
Implicit Types (x : list A) (g : random.RandomState).

Lemma xrange_bounds (a b : Z) : Forall (λ i, a ≤ i < b) (xrange a b).
Proof.
  unfold xrange, range. apply Forall_fmap, Forall_fmap, Forall_forall.
  intros k Hk. apply list_elem_of_In, in_seq in Hk. simpl. lia.
Qed.

(** One exchange keeps the elements. *)
Lemma shuffle_body_Permutation x0 x g (i : Z) :
  x ≡ₚ x0 → 1 ≤ i < len x0 →
  ∃ st, random.shuffle_body (x, g) i = Ok st ∧ st.1 ≡ₚ x0.
Proof.
  intros Hperm Hi. unfold random.shuffle_body, random.random_index.
  set (j := random.stream g (random.position g) `mod` (i + 1)).
  assert (Hj : 0 ≤ j < i + 1) by (apply Z.mod_pos_bound; lia).
  assert (Hlen : length x = length x0) by by apply Permutation_length.
  unfold len in Hi.
  destruct (lookup_lt_is_Some_2 x (Z.to_nat j)) as [xj Hxj]; [lia|].
  destruct (lookup_lt_is_Some_2 x (Z.to_nat i)) as [xi Hxi]; [lia|].
  rewrite <- (Z2Nat.id j), <- (Z2Nat.id i) by lia.
  rewrite (getitem_nat _ _ _ Hxj). simpl.
  rewrite (getitem_nat _ _ _ Hxi). simpl.
  rewrite setitem_nat by lia. simpl.
  rewrite setitem_nat by (rewrite length_insert; lia). simpl.
  eexists. split; [done|]. simpl.
  by rewrite (Permutation_insert_swap _ _ _ _ _ Hxi Hxj).
Qed.

Lemma shuffle_Permutation x g :
  ∃ x' g', random.shuffle x g = Ok (x', g') ∧ x' ≡ₚ x.
Proof.
  unfold random.shuffle.
  destruct (for_each_invariant (λ st : list A * random.RandomState,
                                  st.1 ≡ₚ x)
              (λ i, 1 ≤ i < len x) random.shuffle_body
              (reverse (xrange 1 (len x))) (x, g))
    as ([x' g'] & Hrun & Hinv).
  - apply Forall_reverse, xrange_bounds.
  - intros [y h] i Hy Hi. by apply shuffle_body_Permutation.
  - done.
  - eauto.
Qed.

End Shuffle.

Section Reset.
Context {conv : Conversions}.

(** [C5] [reset] shuffles the dataset in place: it always succeeds,
    the new [data] is a permutation of the old one (the same triples,
    each as often as before), and [batch_size], [provide_data] and
    [provide_label] are unchanged. *)
Theorem DataIter_reset_permutes (self : DataIter) (g : random.RandomState) :
  ∃ self' g',
    DataIter_reset self g = Ok (self', g')
    ∧ self_data self' ≡ₚ self_data self
    ∧ batch_size self' = batch_size self
    ∧ provide_data self' = provide_data self
    ∧ provide_label self' = provide_label self.
Proof.
  unfold DataIter_reset.
  destruct (shuffle_Permutation (self_data self) g)
    as (x' & g' & -> & Hperm).
  simpl. eauto 10.
Qed.

End Reset.

(** ** The loader *)

Section LoaderFacts.
Context {conv : Conversions}.

Lemma kept_cons_skip line lines :
  length (fields line) ≠ 4%nat → kept (line :: lines) = kept lines.
Proof. intros H. unfold kept. simpl. by rewrite filter_cons_False. Qed.

Lemma kept_cons_keep line lines :
  length (fields line) = 4%nat →
  kept (line :: lines) = fields line :: kept lines.
Proof. intros H. unfold kept. simpl. by rewrite filter_cons_True. Qed.

Lemma kept_length lines :
  Forall (λ tks, length tks = 4%nat) (kept lines).
Proof.
  apply Forall_forall. intros tks Hin.
  by apply list_elem_of_filter in Hin as [? _].
Qed.

Lemma len_four {A} (l : list A) :
  negb (len l =? 4) = false ↔ length l = 4%nat.
Proof.
  unfold len. destruct (Z.eqb_spec (Z.of_nat (length l)) 4); simpl;
    split; (lia || done).
Qed.

Lemma init_body_skip (acc : list record) line :
  length (fields line) ≠ 4%nat → init_body acc line = Ok acc.
Proof.
  intros H. unfold init_body.
  destruct (negb (len (fields line) =? 4)) eqn:H4; [done|].
  by apply len_four in H4.
Qed.

Lemma init_body_keep (acc : list record) line :
  length (fields line) = 4%nat →
  init_body acc line
  = match parse_record (fields line) with
    | Some r => Ok (acc ++ [r])
    | None => Raise ValueError
    end.
Proof.
  intros H. unfold init_body.
  destruct (fields line) as [|f0 [|f1 [|f2 [|f3 [|]]]]];
    simpl in H; try discriminate.
  change (negb (len [f0; f1; f2; f3] =? 4)) with false. cbv iota.
  change (getitem [f0; f1; f2; f3] 0) with (Ok f0).
  change (getitem [f0; f1; f2; f3] 1) with (Ok f1).
  change (getitem [f0; f1; f2; f3] 2) with (Ok f2).
  unfold parse_record. simpl.
  destruct (py_int f0) as [u|]; simpl; [|done].
  destruct (py_int f1) as [i|]; simpl; [|done].
  by destruct (py_float f2) as [r|].
Qed.

Lemma max_id_body_skip (mu mi : Z) line :
  length (fields line) ≠ 4%nat → max_id_body (mu, mi) line = Ok (mu, mi).
Proof.
  intros H. unfold max_id_body.
  destruct (negb (len (fields line) =? 4)) eqn:H4; [done|].
  by apply len_four in H4.
Qed.

Lemma max_id_body_keep (mu mi : Z) line :
  length (fields line) = 4%nat →
  max_id_body (mu, mi) line
  = match parse_ids (fields line) with
    | Some (u, i) => Ok (Z.max mu u, Z.max mi i)
    | None => Raise ValueError
    end.
Proof.
  intros H. unfold max_id_body.
  destruct (fields line) as [|f0 [|f1 [|f2 [|f3 [|]]]]];
    simpl in H; try discriminate.
  change (negb (len [f0; f1; f2; f3] =? 4)) with false. cbv iota.
  change (getitem [f0; f1; f2; f3] 0) with (Ok f0).
  change (getitem [f0; f1; f2; f3] 1) with (Ok f1).
  unfold parse_ids. simpl.
  destruct (py_int f0) as [u|]; simpl; [|done].
  by destruct (py_int f1) as [i|].
Qed.

Lemma mapM_cons {X Y} (f : X → option Y) x l :
  mapM f (x :: l)
  = match f x with
    | Some y => match mapM f l with
                | Some k => Some (y :: k)
                | None => None
                end
    | None => None
    end.
Proof. simpl. destruct (f x); [|done]. simpl. by destruct (mapM f l). Qed.

(** The loop of [__init__] appends the records of the kept lines, and
    raises [ValueError] when one of them does not convert. *)
Lemma init_loop lines (acc : list record) :
  for_each init_body lines acc
  = match mapM parse_record (kept lines) with
    | Some rs => Ok (acc ++ rs)
    | None => Raise ValueError
    end.
Proof.
  revert acc. induction lines as [|line lines IH]; intros acc.
  - simpl. by rewrite app_nil_r.
  - change (for_each init_body (line :: lines) acc)
      with (Py.bind (init_body acc line) (for_each init_body lines)).
    destruct (decide (length (fields line) = 4%nat)) as [H4|H4].
    + rewrite (init_body_keep _ _ H4), (kept_cons_keep _ _ H4), mapM_cons.
      destruct (parse_record (fields line)) as [r|]; [|done].
      simpl. rewrite IH.
      destruct (mapM parse_record (kept lines)) as [rs|]; [|done].
      by rewrite <- app_assoc.
    + rewrite (init_body_skip _ _ H4), (kept_cons_skip _ _ H4).
      simpl. apply IH.
Qed.

Lemma foldr_max_start (l : list Z) (m x : Z) :
  foldr Z.max (Z.max m x) l = Z.max x (foldr Z.max m l).
Proof. induction l as [|y l IH]; simpl; lia. Qed.

(** The loop of [max_id]. *)
Lemma max_id_loop lines (mu mi : Z) :
  for_each max_id_body lines (mu, mi)
  = match mapM parse_ids (kept lines) with
    | Some ids => Ok (foldr Z.max mu (ids.*1), foldr Z.max mi (ids.*2))
    | None => Raise ValueError
    end.
Proof.
  revert mu mi. induction lines as [|line lines IH]; intros mu mi.
  - done.
  - change (for_each max_id_body (line :: lines) (mu, mi))
      with (Py.bind (max_id_body (mu, mi) line)
                    (for_each max_id_body lines)).
    destruct (decide (length (fields line) = 4%nat)) as [H4|H4].
    + rewrite (max_id_body_keep _ _ _ H4), (kept_cons_keep _ _ H4),
        mapM_cons.
      destruct (parse_ids (fields line)) as [[u i]|]; [|done].
      simpl. rewrite IH.
      destruct (mapM parse_ids (kept lines)) as [ids|]; [|done].
      simpl. by rewrite !foldr_max_start.
    + rewrite (max_id_body_skip _ _ _ H4), (kept_cons_skip _ _ H4).
      simpl. apply IH.
Qed.

Lemma maximum_spec (l : list Z) :
  (∀ x, x ∈ l → x ≤ maximum l)
  ∧ 0 ≤ maximum l
  ∧ (maximum l = 0 ∨ maximum l ∈ l).
Proof.
  unfold maximum. induction l as [|x l (IH1 & IH2 & IH3)]; simpl.
  - split; [|split; [lia | by left]].
    intros x Hx. by apply elem_of_nil in Hx.
  - split; [|split; [lia|]].
    + intros y Hy. apply elem_of_cons in Hy as [->|Hy]; [lia|].
      specialize (IH1 y Hy). lia.
    + destruct (Z.max_spec x (foldr Z.max 0 l)) as [[_ ->]|[_ ->]].
      * destruct IH3 as [->|?]; [by left|]. right. by apply list_elem_of_further.
      * right. apply list_elem_of_here.
Qed.

End LoaderFacts.

Section LoaderTheorems.
Context {conv : Conversions}.

Lemma parse_record_Some tks (r : record) :
  parse_record tks = Some r
  ↔ ∃ f0 f1 f2 f3,
      tks = [f0; f1; f2; f3]
      ∧ py_int f0 = Some r.1.1
      ∧ py_int f1 = Some r.1.2
      ∧ py_float f2 = Some r.2.
Proof.
  destruct r as [[u i] x]. split.
  - destruct tks as [|f0 [|f1 [|f2 [|f3 [|]]]]]; try done. simpl.
    destruct (py_int f0) as [u'|] eqn:H0; simpl; [|done].
    destruct (py_int f1) as [i'|] eqn:H1; simpl; [|done].
    destruct (py_float f2) as [x'|] eqn:H2; simpl; [|done].
    intros [= -> -> ->]. by exists f0, f1, f2, f3.
  - intros (f0 & f1 & f2 & f3 & -> & H0 & H1 & H2). simpl in *.
    by rewrite H0, H1, H2.
Qed.

(** [C2], as amended.  The loader knows one kind of malformed line, the
    line whose stripped text does not split on tab into exactly four
    fields: it is skipped, silently.  Of the remaining lines, each
    contributes exactly one tuple when its first two fields convert
    with [int] and its third with [float] ([max_id]: its first two
    with [int]); the fourth field is never examined.  The failures
    are [IOError] when the file does not exist, and [ValueError] when
    a field of a four-field line does not convert: such a line is not
    skipped. *)
Theorem loader_failure_modes (fs : gmap string string) (fname : string)
    (bs : Z) :
  match fs !! fname with
  | None =>
      DataIter_init fs fname bs = Raise IOError
      ∧ max_id fs fname = Raise IOError
  | Some content =>
      let rows := kept (readlines content) in
      match mapM parse_record rows with
      | Some data =>
          length data = length rows
          ∧ ∃ it, DataIter_init fs fname bs = Ok it ∧ self_data it = data
      | None => DataIter_init fs fname bs = Raise ValueError
      end
      ∧ match mapM parse_ids rows with
        | Some ids => ∃ m, max_id fs fname = Ok m
        | None => max_id fs fname = Raise ValueError
        end
  end.
Proof.
  unfold DataIter_init, max_id, file.
  destruct (fs !! fname) as [content|]; [|done].
  simpl. rewrite init_loop, max_id_loop. split.
  - destruct (mapM parse_record _) as [data|] eqn:Hm; [|done].
    split; [symmetry; by eapply length_mapM|]. simpl. eauto.
  - destruct (mapM parse_ids _) as [ids|]; [|done]. simpl. eauto.
Qed.

(** [C3], as amended.  When the file exists, [__init__] succeeds with
    the list [data] exactly when [data] holds, in file order, one
    triple per line whose text, stripped of leading and trailing
    whitespace, splits on tab into exactly four fields: the integer
    values of the first two fields and the float value of the third;
    the fourth field is discarded. *)
Theorem DataIter_init_data (fs : gmap string string) (fname : string)
    (bs : Z) (content : string) (data : list record) :
  fs !! fname = Some content →
  (∃ it, DataIter_init fs fname bs = Ok it ∧ self_data it = data)
  ↔ Forall2 (λ tks r, ∃ f0 f1 f2 f3,
               tks = [f0; f1; f2; f3]
               ∧ py_int f0 = Some r.1.1
               ∧ py_int f1 = Some r.1.2
               ∧ py_float f2 = Some r.2)
      (kept (readlines content)) data.
Proof.
  intros Hfile. unfold DataIter_init, file. rewrite Hfile. simpl.
  rewrite init_loop. split.
  - intros (it & Hit & <-).
    destruct (mapM parse_record _) as [rs|] eqn:Hm; [|done].
    simpl in Hit. injection Hit as <-. simpl.
    apply mapM_Some_1 in Hm.
    eapply Forall2_impl; [exact Hm|].
    intros tks r. apply parse_record_Some.
  - intros Hall.
    rewrite (mapM_Some_2 parse_record _ data).
    + simpl. eauto.
    + eapply Forall2_impl; [exact Hall|].
      intros tks r. apply parse_record_Some.
Qed.

(** [C10], as amended.  When the file exists and the first two fields
    of every line whose stripped text splits on tab into exactly four
    fields are integers, [max_id] returns one more than the largest
    of 0 and the user ids, and one more than the largest of 0 and the
    item ids, of those lines; that is [(1, 1)] when there is no such
    line, and one more than the largest id as soon as some id is not
    negative. *)
Theorem max_id_maximum (fs : gmap string string) (fname : string)
    (content : string) (ids : list (Z * Z)) :
  fs !! fname = Some content →
  mapM parse_ids (kept (readlines content)) = Some ids →
  max_id fs fname = Ok (maximum (ids.*1) + 1, maximum (ids.*2) + 1)
  ∧ (ids = [] → max_id fs fname = Ok (1, 1))
  ∧ 0 ≤ maximum (ids.*1)
  ∧ 0 ≤ maximum (ids.*2)
  ∧ (∀ u, u ∈ ids.*1 → u ≤ maximum (ids.*1))
  ∧ (∀ i, i ∈ ids.*2 → i ≤ maximum (ids.*2))
  ∧ (maximum (ids.*1) = 0 ∨ maximum (ids.*1) ∈ ids.*1)
  ∧ (maximum (ids.*2) = 0 ∨ maximum (ids.*2) ∈ ids.*2).
Proof.
  intros Hfile Hids.
  assert (Hrun : max_id fs fname
                 = Ok (maximum (ids.*1) + 1, maximum (ids.*2) + 1)).
  { unfold max_id, file. rewrite Hfile. simpl.
    by rewrite max_id_loop, Hids. }
  destruct (maximum_spec (ids.*1)) as (Hu1 & Hu0 & Hu2).
  destruct (maximum_spec (ids.*2)) as (Hi1 & Hi0 & Hi2).
  repeat split; try done.
  intros ->. by rewrite Hrun.
Qed.

End LoaderTheorems.

(** *** The loader on the sample files *)

Example DataIter_init_sample :
  DataIter_init (conv := decimal_literals) Samples.files "./ml-100k/u.data" 64
  = Ok {| batch_size := 64;
          self_data := Samples.records;
          provide_data := [("user", [64]); ("item", [64])];
          provide_label := [("score", [64])] |}.
Proof. reflexivity. Qed.

Example max_id_sample :
  max_id (conv := decimal_literals) Samples.files "./ml-100k/u.data"
  = Ok (197, 378).
Proof. reflexivity. Qed.

Lemma DataIter_init_data_witness :
  (∃ it, DataIter_init (conv := decimal_literals)
           Samples.files "./ml-100k/u.data" 64 = Ok it
         ∧ self_data it = Samples.records)
  ↔ Forall2 (λ tks r, ∃ f0 f1 f2 f3,
               tks = [f0; f1; f2; f3]
               ∧ int_literal f0 = Some r.1.1
               ∧ int_literal f1 = Some r.1.2
               ∧ float_literal f2 = Some r.2)
      (kept (readlines Samples.u_data))
      Samples.records.
Proof.
  exact (DataIter_init_data (conv := decimal_literals) Samples.files
           "./ml-100k/u.data" 64 Samples.u_data Samples.records eq_refl).
Defined.

Lemma max_id_maximum_witness :
  max_id (conv := decimal_literals) Samples.files "./ml-100k/u.data"
  = Ok (maximum [196; 186; 22; 166] + 1, maximum [242; 302; 377; 346] + 1).
Proof.
  exact (proj1 (max_id_maximum (conv := decimal_literals) Samples.files
                  "./ml-100k/u.data" Samples.u_data
                  [(196, 242); (186, 302); (22, 377); (166, 346)]
                  eq_refl eq_refl)).
Defined.

(** A line of four fields that are not numbers is not skipped: loading
    the file fails. *)
Lemma malformed_line_raises :
  ¬ valid_record (conv := decimal_literals) (row ["a"; "b"; "c"; "d"])
  ∧ DataIter_init (conv := decimal_literals) Samples.garbled "u.data" 64
    = Raise ValueError
  ∧ max_id (conv := decimal_literals) Samples.garbled "u.data"
    = Raise ValueError.
Proof.
  split; [|split; reflexivity].
  intros (f0 & f1 & f2 & f3 & Hf & [u Hu] & _).
  vm_compute in Hf. injection Hf as <- <- <- <-. discriminate Hu.
Qed.

(** A line that splits on tab into four fields, the first three of them
    numbers, and yet contributes no triple: its stripped text has three
    fields.  And a line that splits on tab into five fields and yet
    contributes a triple: its stripped text has four. *)
Lemma trailing_tab_line_dropped :
  split TAB (row ["1"; "2"; "3"; ""]) = ["1"; "2"; "3"; NL]
  ∧ int_literal "1" = Some 1
  ∧ int_literal "2" = Some 2
  ∧ float_literal "3" = Some 3%Q
  ∧ DataIter_init (conv := decimal_literals) Samples.trailing_tab "u.data" 64
    = Ok {| batch_size := 64;
            self_data := [];
            provide_data := [("user", [64]); ("item", [64])];
            provide_label := [("score", [64])] |}
  ∧ split TAB (row [""; "1"; "2"; "3"; "4"]) = [""; "1"; "2"; "3"; "4" +:+ NL]
  ∧ DataIter_init (conv := decimal_literals) Samples.leading_tab "u.data" 64
    = Ok (@mkDataIter decimal_literals 64 [(1, 2, 3%Q)]
            [("user", [64]); ("item", [64])] [("score", [64])]).
Proof. repeat split; reflexivity. Qed.

(** With negative ids the result is not one more than the largest id. *)
Lemma negative_ids_max_id :
  kept (readlines (row ["-5"; "-7"; "1"; "0"])) = [["-5"; "-7"; "1"; "0"]]
  ∧ int_literal "-5" = Some (-5)
  ∧ int_literal "-7" = Some (-7)
  ∧ max_id (conv := decimal_literals) Samples.negative_ids "u.data"
    = Ok (1, 1)
  ∧ (1, 1) ≠ (1 + -5, 1 + -7).
Proof. repeat split; try reflexivity. discriminate. Qed.

(** ** The metric *)

Section MetricFacts.
Implicit Types (label pred : list R) (a m : nat).

Lemma sum_squared_errors_nonneg label pred :
  (0 <= sum_R (squared_errors label pred))%R.
Proof.
  unfold squared_errors, sum_R. revert pred.
  induction label as [|l label IH]; intros [|p pred];
    cbn [zip_with foldr]; try lra.
  specialize (IH pred). pose proof (pow2_ge_0 (l - p)). lra.
Qed.

Lemma squared_errors_length label pred :
  (length label ≤ length pred)%nat →
  length (squared_errors label pred) = length label.
Proof. intros H. unfold squared_errors. rewrite length_zip_with. lia. Qed.

(** The loop of [RMSE] when [pred] is long enough: the sum of the
    squared errors, and the count. *)
Lemma RMSE_loop label pred m a (ret n : R) :
  (a + m ≤ length label)%nat →
  (length label ≤ length pred)%nat →
  for_each (RMSE_body label pred) (Z.of_nat <$> seq a m) (ret, n)
  = Ok ((ret + sum_R (squared_errors (slice label a m) (drop a pred)))%R,
        (n + INR m)%R).
Proof.
  revert a ret n. induction m as [|m IH]; intros a ret n Hl Hp.
  - simpl. do 2 f_equal; lra.
  - destruct (lookup_lt_is_Some_2 label a) as [l Hla]; [lia|].
    destruct (lookup_lt_is_Some_2 pred a) as [p Hpa]; [lia|].
    change (for_each (RMSE_body label pred) (Z.of_nat <$> seq a (S m))
              (ret, n))
      with (Py.bind (RMSE_body label pred (ret, n) (Z.of_nat a))
              (for_each (RMSE_body label pred)
                 (Z.of_nat <$> seq (S a) m))).
    unfold RMSE_body at 1. rewrite S_INR.
    rewrite (getitem_nat _ _ _ Hla), (getitem_nat _ _ _ Hpa). simpl.
    rewrite IH by lia. unfold slice.
    rewrite (drop_S label _ _ Hla), (drop_S pred _ _ Hpa). simpl.
    do 2 f_equal; lra.
Qed.

(** The loop of [RMSE] in general: an [IndexError] from a short
    [pred], or the count. *)
Lemma RMSE_loop_cases label pred m a (ret n : R) :
  (a + m ≤ length label)%nat →
  for_each (RMSE_body label pred) (Z.of_nat <$> seq a m) (ret, n)
  = Raise IndexError
  ∨ ∃ ret', for_each (RMSE_body label pred) (Z.of_nat <$> seq a m)
              (ret, n) = Ok (ret', (n + INR m)%R).
Proof.
  revert a ret n. induction m as [|m IH]; intros a ret n Hl.
  - right. exists ret. simpl. do 2 f_equal. lra.
  - destruct (lookup_lt_is_Some_2 label a) as [l Hla]; [lia|].
    change (for_each (RMSE_body label pred) (Z.of_nat <$> seq a (S m))
              (ret, n))
      with (Py.bind (RMSE_body label pred (ret, n) (Z.of_nat a))
              (for_each (RMSE_body label pred)
                 (Z.of_nat <$> seq (S a) m))).
    unfold RMSE_body at 1 3. rewrite S_INR.
    rewrite (getitem_nat _ _ _ Hla).
    destruct (pred !! a) as [p|] eqn:Hpa.
    + rewrite (getitem_nat _ _ _ Hpa). simpl.
      destruct (IH (S a) (ret + (l - p) * (l - p))%R (n + 1)%R)
        as [->|[ret' ->]]; [lia|by left|].
      right. exists ret'. do 2 f_equal. lra.
    + rewrite (getitem_nat_None _ _ Hpa). by left.
Qed.

Lemma INR_length_nonzero {A} (l : list A) : l ≠ [] → INR (length l) ≠ 0%R.
Proof.
  intros H. destruct l; [done|]. simpl length. rewrite S_INR.
  pose proof (pos_INR (length l)). lra.
Qed.

(** The value of [RMSE] when [pred] is long enough. *)
Lemma RMSE_value label (pred : ndarray R) :
  label ≠ [] →
  (length label ≤ length (flatten pred))%nat →
  RMSE label pred = Ok (root_mean_square_error label (flatten pred)).
Proof.
  intros Hne Hlen. unfold RMSE, len. rewrite range_of_nat.
  rewrite RMSE_loop by (done || lia). simpl.
  unfold slice. rewrite drop_0, take_ge by lia.
  unfold truediv. simpl.
  rewrite !Rplus_0_l.
  rewrite bool_decide_eq_false_2 by by apply INR_length_nonzero.
  simpl. unfold math_sqrt. simpl.
  rewrite bool_decide_eq_false_2.
  - unfold root_mean_square_error, mean.
    by rewrite squared_errors_length.
  - apply Rle_not_lt.
    apply Rmult_le_pos; [apply sum_squared_errors_nonneg|].
    left. apply Rinv_0_lt_compat.
    pose proof (INR_length_nonzero label Hne).
    pose proof (pos_INR (length label)). lra.
Qed.

Lemma flatten_scalars {F} (l : list F) : flatten (array (scalar <$> l)) = l.
Proof. simpl. induction l as [|x l IH]; simpl; [done|]. by f_equal. Qed.

(** [C9] [RMSE] is not total on empty input.  With an empty [label],
    whatever [pred] is, the division is by [n = 0] and raises
    [ZeroDivisionError], on the real numbers and on binary64 alike;
    [RMSE] raises [ZeroDivisionError] exactly when [label] is empty;
    and a [pred] for which [RMSE] gets through the division and
    returns exists exactly when [label] is not empty. *)
Theorem RMSE_division_by_zero :
  (∀ pred : ndarray R, RMSE [] pred = Raise ZeroDivisionError)
  ∧ (∀ pred : ndarray float, RMSE [] pred = Raise ZeroDivisionError)
  ∧ (∀ label (pred : ndarray R),
       RMSE label pred = Raise ZeroDivisionError ↔ label = [])
  ∧ (∀ label, (∃ (pred : ndarray R) r, RMSE label pred = Ok r)
              ↔ label ≠ []).
Proof.
  assert (Hempty : ∀ pred : ndarray R,
             RMSE [] pred = Raise ZeroDivisionError).
  { intros pred. unfold RMSE. simpl. unfold truediv. simpl.
    by rewrite bool_decide_eq_true_2. }
  split; [done|]. split; [done|]. split.
  - intros label pred. split; [|by intros ->].
    intros Hraise. destruct label as [|l label]; [done|]. exfalso.
    revert Hraise. unfold RMSE, len. rewrite range_of_nat.
    destruct (RMSE_loop_cases (l :: label) (flatten pred)
                (length (l :: label)) 0 fzero fzero) as [->|[ret' ->]];
      [lia|done|].
    simpl. unfold truediv. simpl fis_zero.
    rewrite bool_decide_eq_false_2.
    + simpl. unfold math_sqrt. by destruct (fis_neg _).
    + pose proof (pos_INR (length label)).
      destruct (length label) as [|k]; cbv iota; lra.
  - intros label. split.
    + intros (pred & r & Hr) ->. by rewrite Hempty in Hr.
    + intros Hne. exists (array (scalar <$> label)). eexists.
      apply RMSE_value; [done|]. by rewrite flatten_scalars.
Qed.

End MetricFacts.

(** *** The metric in the arithmetic of the code *)

Section MetricInFloats.
Context {F : Type} {ops : FloatOps F}.
Implicit Types (label pred : list F) (a m : nat).

(** The loop of [RMSE] when [pred] is long enough, whatever the
    arithmetic. *)
Lemma RMSE_loop_float label pred m a (ret n : F) :
  (a + m ≤ length label)%nat →
  (length label ≤ length pred)%nat →
  for_each (RMSE_body label pred) (Z.of_nat <$> seq a m) (ret, n)
  = Ok (foldl fadd ret
          (float_squared_errors (slice label a m) (drop a pred)),
        foldl (λ c _, fadd c fone) n (slice label a m)).
Proof.
  revert a ret n. induction m as [|m IH]; intros a ret n Hl Hp.
  - done.
  - destruct (lookup_lt_is_Some_2 label a) as [l Hla]; [lia|].
    destruct (lookup_lt_is_Some_2 pred a) as [p Hpa]; [lia|].
    change (for_each (RMSE_body label pred) (Z.of_nat <$> seq a (S m))
              (ret, n))
      with (Py.bind (RMSE_body label pred (ret, n) (Z.of_nat a))
              (for_each (RMSE_body label pred)
                 (Z.of_nat <$> seq (S a) m))).
    unfold RMSE_body at 1.
    rewrite (getitem_nat _ _ _ Hla), (getitem_nat _ _ _ Hpa). simpl.
    rewrite IH by lia. unfold slice, float_squared_errors.
    by rewrite (drop_S label _ _ Hla), (drop_S pred _ _ Hpa).
Qed.

(** The loop of [RMSE] when [pred] runs out, whatever the arithmetic. *)
Lemma RMSE_loop_float_short label pred m a (ret n : F) :
  (a + m ≤ length label)%nat →
  (a ≤ length pred < a + m)%nat →
  for_each (RMSE_body label pred) (Z.of_nat <$> seq a m) (ret, n)
  = Raise IndexError.
Proof.
  revert a ret n. induction m as [|m IH]; intros a ret n Hl Hp; [lia|].
  destruct (lookup_lt_is_Some_2 label a) as [l Hla]; [lia|].
  change (for_each (RMSE_body label pred) (Z.of_nat <$> seq a (S m))
            (ret, n))
    with (Py.bind (RMSE_body label pred (ret, n) (Z.of_nat a))
            (for_each (RMSE_body label pred)
               (Z.of_nat <$> seq (S a) m))).
  unfold RMSE_body at 1.
  rewrite (getitem_nat _ _ _ Hla).
  destruct (pred !! a) as [p|] eqn:Hpa.
  - rewrite (getitem_nat _ _ _ Hpa). simpl.
    apply lookup_lt_Some in Hpa. apply IH; lia.
  - by rewrite (getitem_nat_None _ _ Hpa).
Qed.

Lemma RMSE_float_value label (pred : ndarray F) :
  (length label ≤ length (flatten pred))%nat →
  RMSE label pred
  = (q ← truediv (fsum (float_squared_errors label (flatten pred)))
                 (float_count label);
     math_sqrt q).
Proof.
  intros Hlen. unfold RMSE, len. rewrite range_of_nat.
  rewrite RMSE_loop_float by (done || lia). simpl.
  unfold slice. by rewrite drop_0, take_ge by lia.
Qed.


End MetricInFloats.




(** The metric on binary64. *)
Example RMSE_binary64 :
  RMSE [3; 5]%float (array [array [scalar 1]; array [scalar 3]]%float)
  = Ok 2%float.
Proof. reflexivity. Qed.

Example RMSE_binary64_short_pred :
  RMSE [3; 5]%float (array [array [scalar 1%float]]) = Raise IndexError.
Proof. reflexivity. Qed.

(** ** Training *)

Section TrainFacts.
Context {conv : Conversions}.

Lemma DataIter_init_cases (fs : gmap string string) fname (bs : Z) :
  match DataIter_init fs fname bs with
  | Ok it => batch_size it = bs
  | Raise e => e = IOError ∨ e = ValueError
  end.
Proof.
  unfold DataIter_init, file.
  destruct (fs !! fname) as [content|]; simpl; [|by left].
  rewrite init_loop.
  destruct (mapM parse_record _) as [rs|]; simpl; [done|by right].
Qed.

(** [C8] The [batch_size] argument of [train] has no effect: two calls
    that differ only in it do the same, and both data iterators are
    those of [get_data(64)], with batch size 64 (as has the
    speedometer), whatever was passed. *)
Theorem train_ignores_batch_size (fs : gmap string string)
    (network : Symbol) (bs1 bs2 num_epoch : Z) (learning_rate : Q) :
  train fs network bs1 num_epoch learning_rate
  = train fs network bs2 num_epoch learning_rate
  ∧ match get_data fs 64 with
    | Ok (tr, te) =>
        batch_size tr = 64 ∧ batch_size te = 64
        ∧ ∃ call,
            train fs network bs1 num_epoch learning_rate = Ok call
            ∧ fit_X call = tr
            ∧ fit_eval_data call = te
            ∧ speedometer_batch_size (fit_batch_end_callback call) = 64
    | Raise e => train fs network bs1 num_epoch learning_rate = Raise e
    end.
Proof.
  split; [done|]. unfold train.
  destruct (get_data fs 64) as [[tr te]|e] eqn:Hget; [|done].
  unfold get_data in Hget.
  pose proof (DataIter_init_cases fs "./ml-100k/u1.base" 64) as Htr.
  pose proof (DataIter_init_cases fs "./ml-100k/u1.test" 64) as Hte.
  destruct (DataIter_init fs "./ml-100k/u1.base" 64) as [tr'|];
    [|done].
  destruct (DataIter_init fs "./ml-100k/u1.test" 64) as [te'|];
    [|done].
  simpl in Hget. injection Hget as -> ->.
  split; [done|]. split; [done|]. simpl. eauto.
Qed.

End TrainFacts.

(** Asked for batches of 32, [train] reports every 312 batches of 64. *)
Example train_sample :
  match train (conv := decimal_literals) Samples.files
          (plain_net 944 1683 64) 32 10 (5 # 100) with
  | Ok call => fit_batch_end_callback call = mkSpeedometer 64 312
  | Raise _ => False
  end.
Proof. reflexivity. Qed.

(** ** The networks *)

Section NetworkFacts.
Variables max_user max_item : Z.

(** [C6], as amended.  The notebook defines three network-definition
    functions, [plain_net], [get_one_layer_mlp] and
    [get_one_layer_dropout_mlp].  They differ only in layer count and
    dropout: without its dropout nodes the third is the second,
    without its hidden layer the second is the first; the first has no
    hidden layer and the other two have one on each side, and only
    the third has dropout nodes, one on each side. *)
Theorem network_definitions_three :
  (network_definitions max_user max_item).*1
  = ["plain_net"; "get_one_layer_mlp"; "get_one_layer_dropout_mlp"]
  ∧ ∀ hidden k,
      let plain := plain_net max_user max_item k in
      let mlp := get_one_layer_mlp max_user max_item hidden k in
      let dropout_mlp :=
        get_one_layer_dropout_mlp max_user max_item hidden k in
      without_dropout dropout_mlp = mlp
      ∧ without_layers mlp = plain
      ∧ (depth plain, depth mlp, depth dropout_mlp) = (0, 1, 1)%nat
      ∧ (dropouts plain, dropouts mlp, dropouts dropout_mlp)
        = (0, 0, 2)%nat.
Proof. by split. Qed.

End NetworkFacts.

(** There are not four network-definition functions. *)
Lemma network_definitions_not_four :
  length (network_definitions 944 1683) = 3%nat
  ∧ length (network_definitions 944 1683) ≠ 4%nat.
Proof. split; [reflexivity | discriminate]. Qed.

(** ** What [plain_net] computes *)

Section ForwardFacts.
Context {F : Type} {ops : FloatOps F}.
Implicit Types (W us vs : list (list F)) (ids : list Z).

Lemma has_shape_true W (rows cols : Z) :
  has_shape W rows cols = true →
  len W = rows ∧ Forall (λ r, len r = cols) W.
Proof.
  unfold has_shape. intros [H1 H2]%andb_prop. split.
  - by apply Z.eqb_eq.
  - apply Forall_forall. intros r Hr.
    apply Z.eqb_eq. revert H2. rewrite forallb_forall.
    intros H2. apply H2. by apply list_elem_of_In.
Qed.

(** Looking the ids up gives the rows of the matrix at those ids. *)
Lemma embedding_rows W (rows cols : Z) ids :
  has_shape W rows cols = true →
  Forall (λ u, 0 ≤ u < rows) ids →
  ∃ rs, mapM (lookup_row W) ids = Some rs
        ∧ Forall2 (λ u r, W !! Z.to_nat u = Some r ∧ len r = cols) ids rs.
Proof.
  intros [Hrows Hcols]%has_shape_true Hids.
  induction Hids as [|u ids Hu _ (rs & Hrs & Hall)].
  - exists []. by split.
  - unfold len in Hrows.
    destruct (lookup_lt_is_Some_2 W (Z.to_nat u)) as [r Hr]; [lia|].
    exists (r :: rs). split.
    + assert (Hrow : lookup_row W u = Some r).
      { unfold lookup_row. by destruct (Z.ltb_spec u 0) as [?|_]; [lia|]. }
      by rewrite mapM_cons, Hrow, Hrs.
    + constructor; [|done]. split; [done|].
      eapply (proj1 (Forall_forall _ _) Hcols).
      by eapply list_elem_of_lookup_2.
Qed.

Lemma same_shape_rows {X Y} (P : X → list F → Prop)
    (Q : Y → list F → Prop) (cols : Z) (xs : list X) (ys : list Y) us vs :
  (∀ x r, P x r → len r = cols) →
  (∀ y r, Q y r → len r = cols) →
  Forall2 P xs us → Forall2 Q ys vs → length xs = length ys →
  same_shape us vs = true.
Proof.
  intros HP HQ Hus Hvs Hlen. unfold same_shape.
  apply bool_decide_eq_true_2.
  revert ys vs Hvs Hlen.
  induction Hus as [|x u xs us Hx _ IH]; intros ys vs Hvs Hlen.
  - destruct Hvs; [done|discriminate].
  - destruct Hvs as [|y v ys vs Hy Hvs]; [discriminate|].
    simpl. f_equal.
    + apply HP in Hx. apply HQ in Hy. unfold len in *. lia.
    + eapply IH; [done|]. simpl in Hlen. lia.
Qed.

Lemma rows_dot us vs :
  (λ x : F, [x]) <$> (fsum <$> zip_with (zip_with fmul) us vs)
  = zip_with (λ u v, [dot u v]) us vs.
Proof.
  revert vs. induction us as [|u us IH]; intros [|v vs]; simpl; try done.
  by rewrite IH.
Qed.

(** [C7] For every [k], [plain_net(k)] is a [LinearRegressionOutput]
    against the label ['score'] whose prediction, for each example of
    a batch, is the dot product of the user's and the item's
    embedding vectors, both of dimension [k]: the rows of the two
    [max_user x k] and [max_item x k] embedding matrices at the
    example's user and item, multiplied elementwise and summed along
    the embedding axis. *)
Theorem plain_net_dot_product (max_user max_item k : Z)
    (env : string → option (tensor F)) (P : Params F)
    (users items : list Z) :
  let Wu := weight P (Embedding (sym_Variable "user") max_user k) in
  let Wi := weight P (Embedding (sym_Variable "item") max_item k) in
  env "user" = Some (t_ids users) →
  env "item" = Some (t_ids items) →
  length users = length items →
  has_shape Wu max_user k = true →
  has_shape Wi max_item k = true →
  Forall (λ u, 0 ≤ u < max_user) users →
  Forall (λ i, 0 ≤ i < max_item) items →
  (∃ pred, plain_net max_user max_item k
           = LinearRegressionOutput pred (sym_Variable "score"))
  ∧ ∃ us vs,
      Forall2 (λ u r, Wu !! Z.to_nat u = Some r ∧ len r = k) users us
      ∧ Forall2 (λ i r, Wi !! Z.to_nat i = Some r ∧ len r = k) items vs
      ∧ forward env P (plain_net max_user max_item k)
        = Some (t_mat (zip_with (λ u v, [dot u v]) us vs)).
Proof.
  intros Wu Wi Huser Hitem Hlen HWu HWi Husers Hitems.
  split; [by eexists|].
  destruct (embedding_rows Wu max_user k users HWu Husers)
    as (us & Hus & Hurows).
  destruct (embedding_rows Wi max_item k items HWi Hitems)
    as (vs & Hvs & Hvrows).
  exists us, vs. split; [done|]. split; [done|].
  unfold plain_net. cbn [forward].
  rewrite Huser, Hitem. fold Wu Wi. rewrite HWu, HWi, Hus, Hvs.
  cbn [fmap option_fmap option_map].
  assert (Hsame : same_shape us vs = true).
  { refine (same_shape_rows _ _ k users items us vs _ _
              Hurows Hvrows Hlen); by intros ? ? [_ ?]. }
  rewrite Hsame.
  change (1 =? 1) with true. cbv iota.
  by rewrite rows_dot.
Qed.

End ForwardFacts.

Lemma plain_net_dot_product_witness :
  ∃ us vs,
    Forall2 (λ u r, [[1; 2]; [3; 4]]%float !! Z.to_nat u = Some r
                    ∧ len r = 2) [1; 0] us
    ∧ Forall2 (λ i r, [[5; 6]]%float !! Z.to_nat i = Some r
                      ∧ len r = 2) [0; 0] vs
    ∧ forward Samples.inputs Samples.embeddings (plain_net 2 1 2)
      = Some (t_mat (zip_with (λ u v, [dot u v]) us vs)).
Proof.
  refine (proj2 (plain_net_dot_product 2 1 2 Samples.inputs
                   Samples.embeddings [1; 0] [0; 0]
                   eq_refl eq_refl eq_refl eq_refl eq_refl _ _)).
  - repeat (constructor; [lia|]). constructor.
  - repeat (constructor; [lia|]). constructor.
Defined.

Example plain_net_forward_sample :
  forward Samples.inputs Samples.embeddings (plain_net 2 1 2)
  = Some (t_mat [[39]; [17]]%float).
Proof. reflexivity. Qed.


(** * Further properties *)

(** ** One pass of the iterator *)

Section IteratorMore.
Context {conv : Conversions}.
Implicit Types (self : DataIter).

Lemma stored_records_batch_of {I X} (store_id : Z → I)
    (store_rating : rating → X) (chunk : list record) :
  stored_records store_id store_rating (batch_of chunk)
  = stored store_id store_rating <$> chunk.
Proof.
  unfold stored_records, batch_of. simpl.
  induction chunk as [|[[u i] r] chunk IH]; [done|].
  simpl. by f_equal.
Qed.

Lemma full_batches_bound (len_data bs : nat) :
  (0 < bs)%nat → (len_data `div` bs * bs ≤ len_data)%nat.
Proof. intros H. rewrite Nat.mul_comm. apply Nat.Div0.mul_div_le. Qed.

(** The pass, for a positive batch size. *)
Lemma DataIter_iter_run self :
  0 < batch_size self →
  let bs := Z.to_nat (batch_size self) in
  let n := (length (self_data self) `div` bs)%nat in
  DataIter_iter self
  = (batch_of <$> ((λ k, slice (self_data self) (k * bs) bs) <$> seq 0 n),
     None).
Proof.
  intros Hpos bs n.
  assert (Hbs : batch_size self = Z.of_nat bs) by (unfold bs; lia).
  assert (Hn : (n * bs ≤ length (self_data self))%nat)
    by (apply full_batches_bound; lia).
  unfold DataIter_iter, floordiv.
  destruct (Z.eqb_spec (batch_size self) 0) as [?|_]; [lia|].
  unfold len. rewrite Hbs, <- Nat2Z.inj_div. fold n.
  rewrite range_of_nat.
  rewrite (generate_ok _ (λ z, batch_of (slice (self_data self)
                                 (Z.to_nat z * bs) bs))).
  - rewrite <- !list_fmap_compose. f_equal.
    apply list_fmap_ext. intros _ k _. simpl. by rewrite Nat2Z.id.
  - apply Forall_fmap, Forall_forall. intros k Hin.
    apply list_elem_of_In, in_seq in Hin. simpl.
    rewrite Nat2Z.id. apply iter_batch_slice; [done|]. nia.
Qed.

(** The pass, for a batch size that is not positive. *)
Lemma DataIter_iter_degenerate self :
  batch_size self ≤ 0 →
  DataIter_iter self
  = ([], if decide (batch_size self = 0) then Some ZeroDivisionError
         else None).
Proof.
  intros Hbs. unfold DataIter_iter, floordiv.
  destruct (Z.eqb_spec (batch_size self) 0) as [H0|H0].
  - by rewrite decide_True.
  - rewrite decide_False by done. rewrite range_nonpos; [done|].
    pose proof (Z.div_mod (len (self_data self)) (batch_size self) H0).
    pose proof (Z.mod_neg_bound (len (self_data self)) (batch_size self)).
    unfold len in *. nia.
Qed.

End IteratorMore.

Section IteratorProperties.
Context {conv : Conversions}.
Implicit Types (self : DataIter).

Lemma DataIter_iter_count self :
  length (DataIter_iter self).1
  = Z.to_nat (if decide (batch_size self = 0) then 0
              else len (self_data self) `div` batch_size self).
Proof.
  destruct (Z.lt_ge_cases 0 (batch_size self)) as [Hpos|Hneg].
  - rewrite (DataIter_iter_run self Hpos). simpl.
    rewrite !length_fmap, length_seq, decide_False by lia.
    unfold len.
    rewrite <- (Z2Nat.id (batch_size self)) at 2 by lia.
    by rewrite <- Nat2Z.inj_div, Nat2Z.id.
  - rewrite (DataIter_iter_degenerate self Hneg). simpl.
    destruct (decide (batch_size self = 0)) as [|H0]; [done|].
    pose proof (Z.div_mod (len (self_data self)) (batch_size self) H0).
    pose proof (Z.mod_neg_bound (len (self_data self)) (batch_size self)).
    unfold len in *. symmetry. apply Z2Nat.nonpos. nia.
Qed.

Lemma DataIter_iter_status self :
  (DataIter_iter self).2
  = if decide (batch_size self = 0) then Some ZeroDivisionError else None.
Proof.
  destruct (Z.lt_ge_cases 0 (batch_size self)) as [Hpos|Hneg].
  - rewrite (DataIter_iter_run self Hpos). simpl.
    by rewrite decide_False by lia.
  - by rewrite (DataIter_iter_degenerate self Hneg).
Qed.

Lemma stored_records_of_batches {I X} (store_id : Z → I)
    (store_rating : rating → X) (chunks : list (list record)) :
  mjoin (stored_records store_id store_rating <$> (batch_of <$> chunks))
  = stored store_id store_rating <$> mjoin chunks.
Proof.
  induction chunks as [|c chunks IH]; [done|].
  rewrite !fmap_cons. simpl.
  by rewrite stored_records_batch_of, IH, fmap_app.
Qed.

(** [X1] Whatever the batch size and the data, a pass of [__iter__]
    never indexes out of range.  It stops on an exception exactly when
    [batch_size] is 0, the exception is [ZeroDivisionError] and nothing
    was yielded before it; with a negative [batch_size] the pass ends
    normally without yielding anything. *)
Theorem DataIter_iter_edge_cases self :
  (DataIter_iter self).2
  = (if decide (batch_size self = 0) then Some ZeroDivisionError else None)
  ∧ (DataIter_iter self).2 ≠ Some IndexError
  ∧ (if decide (batch_size self ≤ 0) then (DataIter_iter self).1 = []
     else length (DataIter_iter self).1
          = Z.to_nat (len (self_data self) `div` batch_size self)).
Proof.
  split; [apply DataIter_iter_status|]. split.
  - rewrite DataIter_iter_status. by destruct (decide _).
  - destruct (decide (batch_size self ≤ 0)) as [Hneg|Hpos].
    + by rewrite (DataIter_iter_degenerate self Hneg).
    + rewrite DataIter_iter_count. by rewrite decide_False by lia.
Qed.

(** [X2] For a positive batch size, what the arrays of the batches of
    one pass hold, in order, is what the dataset without its last
    [len(data) mod batch_size] records becomes when stored: every
    record before those is stored exactly once, and all of them when
    [batch_size] divides [len(data)].  This holds whatever the arrays
    do to the elements they are given. *)
Theorem DataIter_iter_records {I X} (store_id : Z → I)
    (store_rating : rating → X) self :
  0 < batch_size self →
  let bs := Z.to_nat (batch_size self) in
  let n := length (self_data self) in
  mjoin (stored_records store_id store_rating <$> (DataIter_iter self).1)
  = stored store_id store_rating <$> take (n - n `mod` bs) (self_data self).
Proof.
  intros Hpos bs n. rewrite (DataIter_iter_run self Hpos). simpl.
  rewrite stored_records_of_batches. fold bs n.
  rewrite slices_join by (apply full_batches_bound; lia).
  do 2 f_equal. pose proof (Nat.div_mod_eq n bs). lia.
Qed.

(** [X3] The batches of an iterator built by [__init__] announce what
    the iterator announces: for a positive batch size, [provide_data]
    and [provide_label] of every yielded batch are those of the
    iterator, names and shapes. *)
Theorem Batch_provides_what_DataIter_provides (fs : gmap string string)
    (fname : string) (bs : Z) self :
  DataIter_init fs fname bs = Ok self →
  0 < bs →
  Forall (λ b, Batch_provide_data b = provide_data self
               ∧ Batch_provide_label b = provide_label self)
         (DataIter_iter self).1.
Proof.
  intros Hinit Hpos.
  assert (Hself : batch_size self = bs
                  ∧ provide_data self = [("user", [bs]); ("item", [bs])]
                  ∧ provide_label self = [("score", [bs])]).
  { revert Hinit. unfold DataIter_init.
    destruct (file fs fname) as [lines|]; [|done]. simpl.
    destruct (for_each init_body lines []) as [d|]; [|done]. simpl.
    by intros [= <-]. }
  destruct Hself as (Hbs & -> & ->).
  rewrite DataIter_iter_run by lia. simpl.
  apply Forall_fmap, Forall_fmap, Forall_forall. intros k Hk.
  apply list_elem_of_In, in_seq in Hk. simpl.
  assert (Hn : (length (self_data self) `div` Z.to_nat (batch_size self)
                * Z.to_nat (batch_size self)
                ≤ length (self_data self))%nat)
    by (apply full_batches_bound; lia).
  assert (Hlen : len (slice (self_data self)
                        (k * Z.to_nat (batch_size self))
                        (Z.to_nat (batch_size self))) = bs).
  { unfold len, slice. rewrite length_take, length_drop. nia. }
  unfold Batch_provide_data, Batch_provide_label, shape, len. simpl.
  rewrite !length_fmap. unfold len, record in *. by rewrite Hlen.
Qed.

End IteratorProperties.

Lemma DataIter_iter_records_witness :
  mjoin (stored_records (conv := decimal_literals) float32_of_Z (λ q : Q, q)
           <$> (DataIter_iter Samples.loaded).1)
  = stored (conv := decimal_literals) float32_of_Z (λ q : Q, q)
    <$> take (5 - 5 `mod` 2) (self_data Samples.loaded).
Proof.
  exact (DataIter_iter_records (conv := decimal_literals) float32_of_Z
           (λ q : Q, q) Samples.loaded eq_refl).
Defined.

(** Ids above [2^24] are not all stored as they are. *)
Example float32_of_Z_rounds :
  float32_of_Z <$> [1682; 16777216; 16777217; 16777219; -16777219]
  = [1682; 16777216; 16777216; 16777220; -16777220].
Proof. reflexivity. Qed.

Lemma Batch_provides_what_DataIter_provides_witness :
  Forall (λ b, Batch_provide_data b = [("user", [2]); ("item", [2])]
               ∧ Batch_provide_label b = [("score", [2])])
    (DataIter_iter
       (@mkDataIter decimal_literals 2 Samples.records
          [("user", [2]); ("item", [2])] [("score", [2])])).1.
Proof.
  exact (Batch_provides_what_DataIter_provides (conv := decimal_literals)
           Samples.files "./ml-100k/u.data" 2 _ eq_refl eq_refl).
Defined.

(** ** Passes before and after [reset] *)

Section ResetProperties.
Context {conv : Conversions}.
Implicit Types (self : DataIter) (g : random.RandomState).

Lemma DataIter_reset_inv self g self' g' :
  DataIter_reset self g = Ok (self', g') →
  self_data self' ≡ₚ self_data self ∧ batch_size self' = batch_size self.
Proof.
  unfold DataIter_reset.
  destruct (shuffle_Permutation (self_data self) g)
    as (x' & g'' & -> & Hperm).
  simpl. by intros [= <- <-].
Qed.

(** [X4] [reset] does not change what a pass looks like from outside:
    after it, a pass yields as many batches as before and ends the same
    way. *)
Theorem DataIter_reset_keeps_batch_count self g self' g' :
  DataIter_reset self g = Ok (self', g') →
  length (DataIter_iter self').1 = length (DataIter_iter self).1
  ∧ (DataIter_iter self').2 = (DataIter_iter self).2.
Proof.
  intros [Hperm Hbs]%DataIter_reset_inv.
  rewrite !DataIter_iter_count, !DataIter_iter_status, Hbs.
  unfold len. by rewrite (Permutation_length Hperm).
Qed.

(** [X5] When the positive batch size divides the number of records,
    the arrays of the pass before [reset] hold the whole dataset as
    stored, and those of the pass after it hold the same stored
    records, each as often, in a possibly different order: an epoch
    over the shuffled data sees the whole dataset.  This holds
    whatever the arrays do to the elements they are given. *)
Theorem DataIter_reset_same_records {I X} (store_id : Z → I)
    (store_rating : rating → X) self g self' g' :
  DataIter_reset self g = Ok (self', g') →
  0 < batch_size self →
  len (self_data self) `mod` batch_size self = 0 →
  mjoin (stored_records store_id store_rating <$> (DataIter_iter self').1)
  ≡ₚ mjoin (stored_records store_id store_rating <$> (DataIter_iter self).1)
  ∧ mjoin (stored_records store_id store_rating <$> (DataIter_iter self).1)
    = stored store_id store_rating <$> self_data self.
Proof.
  intros [Hperm Hbs]%DataIter_reset_inv Hpos Hdiv.
  assert (Hall : ∀ it : DataIter,
             batch_size it = batch_size self →
             length (self_data it) = length (self_data self) →
             mjoin (stored_records store_id store_rating
                      <$> (DataIter_iter it).1)
             = stored store_id store_rating <$> self_data it).
  { intros it Hb Hl.
    rewrite DataIter_iter_run by lia. simpl.
    rewrite stored_records_of_batches, slices_join
      by (apply full_batches_bound; lia).
    f_equal. apply take_ge. rewrite Hb, Hl.
    unfold len in Hdiv.
    rewrite <- (Z2Nat.id (batch_size self)) in Hdiv by lia.
    rewrite <- Nat2Z.inj_mod in Hdiv.
    pose proof (Nat.div_mod_eq (length (self_data self))
                  (Z.to_nat (batch_size self))). nia. }
  rewrite (Hall self' Hbs (Permutation_length Hperm)).
  rewrite (Hall self eq_refl eq_refl). split; [|done].
  by apply fmap_Permutation.
Qed.

End ResetProperties.

Lemma DataIter_reset_keeps_batch_count_witness :
  length (DataIter_iter (MoreSamples.after_reset Samples.loaded)).1
  = length (DataIter_iter Samples.loaded).1
  ∧ (DataIter_iter (MoreSamples.after_reset Samples.loaded)).2
    = (DataIter_iter Samples.loaded).2.
Proof.
  exact (DataIter_reset_keeps_batch_count Samples.loaded
           MoreSamples.generator
           (MoreSamples.after_reset Samples.loaded)
           (random.mkRandom (random.stream MoreSamples.generator) 4)
           eq_refl).
Defined.

Lemma DataIter_reset_same_records_witness :
  mjoin (stored_records (conv := decimal_literals) float32_of_Z (λ q : Q, q)
           <$> (DataIter_iter (MoreSamples.after_reset MoreSamples.even)).1)
  ≡ₚ mjoin (stored_records (conv := decimal_literals) float32_of_Z (λ q : Q, q)
              <$> (DataIter_iter MoreSamples.even).1)
  ∧ mjoin (stored_records (conv := decimal_literals) float32_of_Z (λ q : Q, q)
             <$> (DataIter_iter MoreSamples.even).1)
    = stored (conv := decimal_literals) float32_of_Z (λ q : Q, q) <$> Samples.records.
Proof.
  exact (DataIter_reset_same_records (conv := decimal_literals) float32_of_Z
           (λ q : Q, q) MoreSamples.even
           MoreSamples.generator
           (MoreSamples.after_reset MoreSamples.even)
           (random.mkRandom (random.stream MoreSamples.generator) 3)
           eq_refl eq_refl eq_refl).
Defined.

Example reset_sample :
  self_data (MoreSamples.after_reset MoreSamples.even)
  = [(196, 242, 3%Q); (22, 377, 1%Q); (186, 302, 3%Q); (166, 346, 1%Q)].
Proof. reflexivity. Qed.

(** ** The two loaders together, and on files put together *)

Section LoaderProperties.
Context {conv : Conversions}.

Lemma DataIter_init_run (fs : gmap string string) fname (bs : Z) content :
  fs !! fname = Some content →
  DataIter_init fs fname bs
  = match mapM parse_record (kept (readlines content)) with
    | Some rs => Ok (mkDataIter bs rs [("user", [bs]); ("item", [bs])]
                       [("score", [bs])])
    | None => Raise ValueError
    end.
Proof.
  intros H. unfold DataIter_init, file. rewrite H. simpl.
  rewrite init_loop. by destruct (mapM parse_record _).
Qed.

Lemma max_id_run (fs : gmap string string) fname content :
  fs !! fname = Some content →
  max_id fs fname
  = match mapM parse_ids (kept (readlines content)) with
    | Some ids => Ok (maximum (ids.*1) + 1, maximum (ids.*2) + 1)
    | None => Raise ValueError
    end.
Proof.
  intros H. unfold max_id, file. rewrite H. simpl.
  rewrite max_id_loop. by destruct (mapM parse_ids _).
Qed.

Lemma parse_ids_of_record tks (r : record) :
  parse_record tks = Some r → parse_ids tks = Some r.1.
Proof.
  destruct tks as [|f0 [|f1 [|f2 [|f3 [|]]]]]; try done. simpl.
  destruct (py_int f0) as [u|]; simpl; [|done].
  destruct (py_int f1) as [i|]; simpl; [|done].
  destruct (py_float f2) as [x|]; simpl; [|done].
  by intros [= <-].
Qed.

Lemma mapM_parse_ids rows (rs : list record) :
  mapM parse_record rows = Some rs → mapM parse_ids rows = Some (rs.*1).
Proof.
  intros H%mapM_Some_1. apply mapM_Some_2.
  induction H as [|tks r rows rs Hr _ IH]; simpl; constructor; [|done].
  by apply parse_ids_of_record.
Qed.

(** [X6] [max_id] covers what [__init__] loads from the same file:
    whenever [__init__] succeeds, so does [max_id], both of its results
    are at least 1, and every user id and item id in the loaded data is
    below them.  (For ids that are not negative these are the sizes a
    lookup table indexed by the loaded ids needs.) *)
Theorem max_id_bounds_loaded_ids (fs : gmap string string)
    (fname : string) (bs : Z) (it : DataIter) :
  DataIter_init fs fname bs = Ok it →
  ∃ max_user max_item,
    max_id fs fname = Ok (max_user, max_item)
    ∧ 1 ≤ max_user ∧ 1 ≤ max_item
    ∧ Forall (λ r : record, r.1.1 < max_user ∧ r.1.2 < max_item)
        (self_data it).
Proof.
  intros Hinit.
  destruct (fs !! fname) as [content|] eqn:Hfile.
  - rewrite (DataIter_init_run _ _ _ _ Hfile) in Hinit.
    destruct (mapM parse_record _) as [rs|] eqn:Hrs; [|done].
    injection Hinit as <-. simpl.
    rewrite (max_id_run _ _ _ Hfile), (mapM_parse_ids _ _ Hrs).
    destruct (maximum_spec (rs.*1.*1)) as (Hu & Hu0 & _).
    destruct (maximum_spec (rs.*1.*2)) as (Hi & Hi0 & _).
    eexists _, _. split; [done|]. split; [lia|]. split; [lia|].
    apply Forall_forall. intros r Hr. split.
    + assert (r.1.1 ∈ rs.*1.*1) as Hin
        by (do 2 apply list_elem_of_fmap_2; done).
      apply Hu in Hin. lia.
    + assert (r.1.2 ∈ rs.*1.*2) as Hin
        by (apply list_elem_of_fmap_2, list_elem_of_fmap_2; done).
      apply Hi in Hin. lia.
  - unfold DataIter_init, file in Hinit. by rewrite Hfile in Hinit.
Qed.

Lemma readlines_nonempty (s : string) : s ≠ EmptyString → readlines s ≠ [].
Proof.
  destruct s as [|c s]; [done|]. intros _. simpl.
  destruct (Ascii.eqb c "010"); [done|]. by destruct (readlines s).
Qed.

Lemma readlines_app (p q : string) :
  whole_lines p → readlines (p +:+ q) = readlines p ++ readlines q.
Proof.
  intros [->|[c ->]]; [done|].
  induction c as [|a c IH]; [done|].
  change (readlines ((String a c +:+ NL) +:+ q))
    with (if Ascii.eqb a "010"
          then String a EmptyString :: readlines ((c +:+ NL) +:+ q)
          else match readlines ((c +:+ NL) +:+ q) with
               | l :: ls => String a l :: ls
               | [] => [String a EmptyString]
               end).
  change (readlines (String a c +:+ NL))
    with (if Ascii.eqb a "010"
          then String a EmptyString :: readlines (c +:+ NL)
          else match readlines (c +:+ NL) with
               | l :: ls => String a l :: ls
               | [] => [String a EmptyString]
               end).
  destruct (Ascii.eqb a "010"); [by rewrite IH|].
  rewrite IH.
  destruct (readlines (c +:+ NL)) as [|l ls] eqn:Hl; [|done].
  exfalso. revert Hl. apply readlines_nonempty. by destruct c.
Qed.

Lemma kept_app (l1 l2 : list string) : kept (l1 ++ l2) = kept l1 ++ kept l2.
Proof. unfold kept. by rewrite fmap_app, filter_app. Qed.

Lemma mapM_app_option {X Y} (f : X → option Y) (l1 l2 : list X) :
  mapM f (l1 ++ l2)
  = match mapM f l1 with
    | Some k1 => match mapM f l2 with
                 | Some k2 => Some (k1 ++ k2)
                 | None => None
                 end
    | None => None
    end.
Proof.
  induction l1 as [|x l1 IH].
  - simpl. by destruct (mapM f l2).
  - rewrite <- app_comm_cons, !mapM_cons, IH.
    destruct (f x); [|done]. destruct (mapM f l1); [|done].
    by destruct (mapM f l2).
Qed.

Lemma maximum_app (l1 l2 : list Z) :
  maximum (l1 ++ l2) = Z.max (maximum l1) (maximum l2).
Proof.
  unfold maximum. induction l1 as [|x l1 IH]; simpl.
  - destruct (maximum_spec l2) as (_ & H & _). unfold maximum in H. lia.
  - rewrite IH. lia.
Qed.

(** [X7] Loading is a homomorphism on files made of whole lines: when
    the first of two files is empty or ends in a newline, [__init__] on
    their concatenation behaves as [__init__] on the first followed by
    [__init__] on the second, and its data is the data of the first
    followed by the data of the second. *)
Theorem DataIter_init_concatenation (fs : gmap string string)
    (f1 f2 f12 : string) (c1 c2 : string) (bs : Z) :
  fs !! f1 = Some c1 → fs !! f2 = Some c2 →
  fs !! f12 = Some (c1 +:+ c2) →
  whole_lines c1 →
  DataIter_init fs f12 bs
  = (it1 ← DataIter_init fs f1 bs;
     it2 ← DataIter_init fs f2 bs;
     Ok (mkDataIter bs (self_data it1 ++ self_data it2)
           [("user", [bs]); ("item", [bs])] [("score", [bs])])).
Proof.
  intros H1 H2 H12 Hwhole.
  rewrite (DataIter_init_run _ _ _ _ H1), (DataIter_init_run _ _ _ _ H2),
    (DataIter_init_run _ _ _ _ H12).
  rewrite readlines_app, kept_app, mapM_app_option by done.
  destruct (mapM parse_record (kept (readlines c1))); [|done].
  by destruct (mapM parse_record (kept (readlines c2))).
Qed.

(** [X8] On such a concatenation [max_id] returns the larger of the two
    results, component by component, and fails when it fails on either
    file. *)
Theorem max_id_concatenation (fs : gmap string string)
    (f1 f2 f12 : string) (c1 c2 : string) :
  fs !! f1 = Some c1 → fs !! f2 = Some c2 →
  fs !! f12 = Some (c1 +:+ c2) →
  whole_lines c1 →
  max_id fs f12
  = ('(mu1, mi1) ← max_id fs f1;
     '(mu2, mi2) ← max_id fs f2;
     Ok (Z.max mu1 mu2, Z.max mi1 mi2)).
Proof.
  intros H1 H2 H12 Hwhole.
  rewrite (max_id_run _ _ _ H1), (max_id_run _ _ _ H2),
    (max_id_run _ _ _ H12).
  rewrite readlines_app, kept_app, mapM_app_option by done.
  destruct (mapM parse_ids (kept (readlines c1))) as [ids1|]; [|done].
  destruct (mapM parse_ids (kept (readlines c2))) as [ids2|]; [|done].
  simpl. rewrite !fmap_app, !maximum_app. do 2 f_equal; lia.
Qed.

Lemma lstrip_all_space (s : string) :
  all_space s = true → lstrip s = EmptyString.
Proof.
  induction s as [|c s IH]; [done|]. simpl.
  intros [-> Hs]%andb_prop. by apply IH.
Qed.

Lemma fields_all_space (line : string) :
  all_space line = true → fields line = [EmptyString].
Proof.
  intros H. unfold fields, strip. by rewrite (lstrip_all_space _ H).
Qed.

Lemma all_space_app (s t : string) :
  all_space (s +:+ t) = all_space s && all_space t.
Proof.
  induction s as [|c s IH]; [done|]. simpl.
  by rewrite IH, andb_assoc.
Qed.

Lemma readlines_all_space (s : string) :
  all_space s = true → Forall (λ l, all_space l = true) (readlines s).
Proof.
  induction s as [|c s IH]; [constructor|]. simpl.
  intros [Hc Hs]%andb_prop. specialize (IH Hs).
  destruct (Ascii.eqb c "010").
  - constructor; [|done]. simpl. by rewrite Hc.
  - destruct (readlines s) as [|l ls].
    + constructor; [|done]. simpl. by rewrite Hc.
    + inversion IH as [|? ? Hl Hls]; subst.
      constructor; [|done]. simpl. by rewrite Hc, Hl.
Qed.

Lemma kept_all_space (lines : list string) :
  Forall (λ l, all_space l = true) lines → kept lines = [].
Proof.
  induction 1 as [|l lines Hl _ IH]; [done|].
  rewrite kept_cons_skip; [done|]. by rewrite (fields_all_space _ Hl).
Qed.

(** [X9] Blank lines do not count: both loaders behave on a file with
    whitespace-only lines inserted between two of its lines (or before
    the first) as on the file without them. *)
Theorem blank_lines_are_skipped (fs : gmap string string)
    (f f' : string) (p ws q : string) (bs : Z) :
  fs !! f = Some (p +:+ q) →
  fs !! f' = Some (p +:+ (ws +:+ NL) +:+ q) →
  whole_lines p →
  all_space ws = true →
  DataIter_init fs f' bs = DataIter_init fs f bs
  ∧ max_id fs f' = max_id fs f.
Proof.
  intros Hf Hf' Hp Hws.
  assert (Hkept : kept (readlines (p +:+ (ws +:+ NL) +:+ q))
                  = kept (readlines (p +:+ q))).
  { rewrite (readlines_app p q Hp), (readlines_app p _ Hp).
    rewrite (readlines_app (ws +:+ NL) q) by (right; by eexists).
    rewrite !kept_app, (kept_all_space (readlines (ws +:+ NL))); [done|].
    apply readlines_all_space. by rewrite all_space_app, Hws. }
  rewrite (DataIter_init_run _ _ _ _ Hf), (DataIter_init_run _ _ _ _ Hf'),
    (max_id_run _ _ _ Hf), (max_id_run _ _ _ Hf').
  by rewrite Hkept.
Qed.

End LoaderProperties.

Lemma max_id_bounds_loaded_ids_witness :
  ∃ max_user max_item,
    max_id (conv := decimal_literals) Samples.files "./ml-100k/u.data"
    = Ok (max_user, max_item)
    ∧ 1 ≤ max_user ∧ 1 ≤ max_item
    ∧ Forall (λ r : @record decimal_literals,
                r.1.1 < max_user ∧ r.1.2 < max_item)
        Samples.records.
Proof.
  exact (max_id_bounds_loaded_ids (conv := decimal_literals) Samples.files
           "./ml-100k/u.data" 64
           (@mkDataIter decimal_literals 64 Samples.records
              [("user", [64]); ("item", [64])] [("score", [64])])
           eq_refl).
Defined.

Lemma first_part_whole_lines : whole_lines MoreSamples.first_part.
Proof.
  right.
  exists (row ["196"; "242"; "3"; "881250949"]
          +:+ join (String TAB EmptyString) ["7"; "9"]).
  reflexivity.
Defined.

Lemma DataIter_init_concatenation_witness :
  DataIter_init (conv := decimal_literals) MoreSamples.files "ab" 64
  = (it1 ← DataIter_init (conv := decimal_literals) MoreSamples.files "a" 64;
     it2 ← DataIter_init (conv := decimal_literals) MoreSamples.files "b" 64;
     Ok (@mkDataIter decimal_literals 64 (self_data it1 ++ self_data it2)
           [("user", [64]); ("item", [64])] [("score", [64])])).
Proof.
  exact (DataIter_init_concatenation (conv := decimal_literals)
           MoreSamples.files "a" "b" "ab"
           MoreSamples.first_part MoreSamples.second_part 64
           eq_refl eq_refl eq_refl first_part_whole_lines).
Defined.

Lemma max_id_concatenation_witness :
  max_id (conv := decimal_literals) MoreSamples.files "ab"
  = ('(mu1, mi1) ← max_id (conv := decimal_literals) MoreSamples.files "a";
     '(mu2, mi2) ← max_id (conv := decimal_literals) MoreSamples.files "b";
     Ok (Z.max mu1 mu2, Z.max mi1 mi2)).
Proof.
  exact (max_id_concatenation (conv := decimal_literals)
           MoreSamples.files "a" "b" "ab"
           MoreSamples.first_part MoreSamples.second_part
           eq_refl eq_refl eq_refl first_part_whole_lines).
Defined.

Lemma blank_lines_are_skipped_witness :
  DataIter_init (conv := decimal_literals) MoreSamples.files "a b" 64
  = DataIter_init (conv := decimal_literals) MoreSamples.files "ab" 64
  ∧ max_id (conv := decimal_literals) MoreSamples.files "a b"
    = max_id (conv := decimal_literals) MoreSamples.files "ab".
Proof.
  exact (blank_lines_are_skipped (conv := decimal_literals)
           MoreSamples.files "ab" "a b"
           MoreSamples.first_part ("  " +:+ NL +:+ " ")
           MoreSamples.second_part 64
           eq_refl eq_refl first_part_whole_lines eq_refl).
Defined.

Example concatenation_sample :
  DataIter_init (conv := decimal_literals) MoreSamples.files "a b" 64
  = Ok (@mkDataIter decimal_literals 64
          [(196, 242, 3%Q); (22, 377, 1%Q)]
          [("user", [64]); ("item", [64])] [("score", [64])]).
Proof. reflexivity. Qed.

(** ** More on the metric *)

Section MetricProperties.
Context {F : Type} {ops : FloatOps F}.
Implicit Types (label : list F) (pred : ndarray F).

Lemma float_squared_errors_take (l p : list F) :
  float_squared_errors l (take (length l) p) = float_squared_errors l p.
Proof.
  unfold float_squared_errors. revert p.
  induction l as [|x l IH]; intros [|y p]; simpl; try done.
  by rewrite IH.
Qed.

Lemma RMSE_short label pred :
  (length (flatten pred) < length label)%nat →
  RMSE label pred = Raise IndexError.
Proof.
  intros Hshort. unfold RMSE, len. rewrite range_of_nat.
  by rewrite RMSE_loop_float_short by lia.
Qed.

(** [X10] Whatever the float arithmetic, [RMSE] raises [IndexError]
    exactly when the flattened [pred] is shorter than [label], and
    what it does depends only on the first [len(label)] elements of
    the flattened [pred]: predictions beyond them are ignored. *)
Theorem RMSE_IndexError_iff_short label pred :
  (RMSE label pred = Raise IndexError
   ↔ (length (flatten pred) < length label)%nat)
  ∧ RMSE label pred
    = RMSE label (array (scalar <$> take (length label) (flatten pred))).
Proof.
  destruct (decide (length (flatten pred) < length label)%nat)
    as [Hshort|Hlong].
  - rewrite (RMSE_short _ _ Hshort). split; [done|].
    symmetry. apply RMSE_short.
    rewrite flatten_scalars, length_take. lia.
  - split.
    + split; [|done]. rewrite RMSE_float_value by lia.
      unfold truediv, math_sqrt.
      destruct (fis_zero _); [done|]. simpl. by destruct (fis_neg _).
    + rewrite !RMSE_float_value
        by (rewrite ?flatten_scalars, ?length_take; lia).
      by rewrite flatten_scalars, float_squared_errors_take.
Qed.

End MetricProperties.

Example RMSE_ignores_further_predictions :
  RMSE [3%float; 5%float]
       (array [scalar 1%float; scalar 3%float; scalar 100%float])
  = Ok 2%float.
Proof. reflexivity. Qed.

(** ** How [get_data] ends *)

Section GetDataProperties.
Context {conv : Conversions}.

Lemma DataIter_init_IOError (fs : gmap string string) fname (bs : Z) :
  DataIter_init fs fname bs = Raise IOError ↔ fs !! fname = None.
Proof.
  destruct (fs !! fname) as [content|] eqn:Hfile.
  - rewrite (DataIter_init_run _ _ _ _ Hfile).
    by destruct (mapM parse_record _).
  - unfold DataIter_init, file. by rewrite Hfile.
Qed.

Lemma DataIter_init_loads (fs : gmap string string) fname (bs : Z) :
  (∃ it, DataIter_init fs fname bs = Ok it) ↔ loads fs fname.
Proof.
  unfold loads. destruct (fs !! fname) as [content|] eqn:Hfile.
  - rewrite (DataIter_init_run _ _ _ _ Hfile). split.
    + intros [it Hit]. exists content. split; [done|].
      destruct (mapM parse_record _) as [rs|] eqn:Hrs; [|done].
      apply (mapM_is_Some_1 parse_record). by rewrite Hrs.
    + intros (c & [= <-] & Hall).
      apply (mapM_is_Some_2 parse_record) in Hall as [rs ->]. eauto.
  - unfold DataIter_init, file. rewrite Hfile. simpl. split.
    + by intros [? ?].
    + by intros (? & ? & _).
Qed.

(** [X13] [get_data] fails only for its files, whatever batch size it
    is given (zero and negative ones included): it returns exactly
    when both ./ml-100k/u1.base and ./ml-100k/u1.test exist and every
    kept line of each converts, and then both iterators have the batch
    size asked for; it raises [IOError] exactly when the training file
    is missing, or the training file loads and the test file is
    missing; any other failure is the [ValueError] of a field that
    does not convert. *)
Theorem get_data_outcome (fs : gmap string string) (bs : Z) :
  ((∃ tr te, get_data fs bs = Ok (tr, te))
   ↔ loads fs "./ml-100k/u1.base" ∧ loads fs "./ml-100k/u1.test")
  ∧ (get_data fs bs = Raise IOError
     ↔ fs !! "./ml-100k/u1.base" = None
       ∨ (loads fs "./ml-100k/u1.base"
          ∧ fs !! "./ml-100k/u1.test" = None))
  ∧ match get_data fs bs with
    | Ok (tr, te) => batch_size tr = bs ∧ batch_size te = bs
    | Raise e => e = IOError ∨ e = ValueError
    end.
Proof.
  pose proof (DataIter_init_cases fs "./ml-100k/u1.base" bs) as Hb.
  pose proof (DataIter_init_cases fs "./ml-100k/u1.test" bs) as Ht.
  pose proof (DataIter_init_IOError fs "./ml-100k/u1.base" bs) as Hbio.
  pose proof (DataIter_init_IOError fs "./ml-100k/u1.test" bs) as Htio.
  pose proof (DataIter_init_loads fs "./ml-100k/u1.base" bs) as Hbl.
  pose proof (DataIter_init_loads fs "./ml-100k/u1.test" bs) as Htl.
  unfold get_data.
  destruct (DataIter_init fs "./ml-100k/u1.base" bs) as [tr|eb]; simpl.
  - destruct (DataIter_init fs "./ml-100k/u1.test" bs) as [te|et]; simpl.
    + split; [|split; [|done]].
      * split; [|by eauto]. intros _. split; [apply Hbl|apply Htl]; eauto.
      * split; [done|]. intros [H|[_ H]]; [by apply Hbio in H|].
        by apply Htio in H.
    + split; [|split; [|done]].
      * split; [by intros (? & ? & ?)|].
        intros [_ [? ?]%Htl]. done.
      * split.
        -- intros [= ->]. right. split; [apply Hbl; eauto|]. by apply Htio.
        -- intros [H|[_ H]]; [by apply Hbio in H|].
           apply Htio in H. by injection H as ->.
  - split; [|split; [|done]].
    + split; [by intros (? & ? & ?)|]. intros [[? ?]%Hbl _]. done.
    + split.
      * intros [= ->]. left. by apply Hbio.
      * intros [H|[[? ?]%Hbl _]]; [|done].
        apply Hbio in H. by injection H as ->.
Qed.

End GetDataProperties.

Example get_data_sample :
  match get_data (conv := decimal_literals) Samples.files 0 with
  | Ok (tr, te) => (len (self_data tr), len (self_data te)) = (4, 1)
  | Raise _ => False
  end.
Proof. reflexivity. Qed.

(** ** The networks and the iterator *)

Section NetworkProperties.
Context {conv : Conversions}.
Variables max_user max_item : Z.

(** [X14] The three networks read what the iterator feeds: the
    variables of each of them are ['user'], ['item'] and ['score'], the
    names an iterator built by [__init__] announces in [provide_data]
    and [provide_label], in that order. *)
Theorem networks_read_what_DataIter_provides (fs : gmap string string)
    (fname : string) (bs : Z) (it : DataIter) (hidden k : Z) :
  DataIter_init fs fname bs = Ok it →
  Forall (λ net, variables net
                 = (provide_data it).*1 ++ (provide_label it).*1)
    [plain_net max_user max_item k;
     get_one_layer_mlp max_user max_item hidden k;
     get_one_layer_dropout_mlp max_user max_item hidden k].
Proof.
  unfold DataIter_init.
  destruct (file fs fname) as [lines|]; [|done]. simpl.
  destruct (for_each init_body lines []) as [d|]; [|done]. simpl.
  intros [= <-]. simpl. by repeat constructor.
Qed.

End NetworkProperties.

Lemma networks_read_what_DataIter_provides_witness :
  Forall (λ net, variables net = ["user"; "item"; "score"])
    [plain_net 944 1683 64;
     get_one_layer_mlp 944 1683 64 64;
     get_one_layer_dropout_mlp 944 1683 64 64].
Proof.
  exact (networks_read_what_DataIter_provides (conv := decimal_literals)
           944 1683 Samples.files "./ml-100k/u.data" 64 _ 64 64 eq_refl).
Defined.

(** ** What the one-layer networks compute *)

Section HiddenLayerFacts.
Context {F : Type} {ops : FloatOps F}.
Implicit Types (W x y : list (list F)) (b : list F).

Lemma same_shape_width (c : Z) x y :
  Forall (λ r, len r = c) x → Forall (λ r, len r = c) y →
  length x = length y → same_shape x y = true.
Proof.
  intros Hx Hy Hlen. unfold same_shape. apply bool_decide_eq_true_2.
  revert y Hy Hlen.
  induction Hx as [|r x Hr _ IH]; intros [|s y] Hy Hlen; try done.
  inversion Hy as [|? ? Hs Hy']; subst. simpl. f_equal.
  - unfold len in *. lia.
  - apply IH; [done|]. simpl in Hlen. lia.
Qed.

Lemma forward_embedding (env : string → option (tensor F)) (P : Params F)
    (name : string) (dim k : Z) (ids : list Z) :
  env name = Some (t_ids ids) →
  has_shape (weight P (Embedding (sym_Variable name) dim k)) dim k = true →
  Forall (λ u, 0 ≤ u < dim) ids →
  ∃ rows,
    Forall2 (λ u r, weight P (Embedding (sym_Variable name) dim k)
                      !! Z.to_nat u = Some r ∧ len r = k) ids rows
    ∧ forward env P (Embedding (sym_Variable name) dim k)
      = Some (t_mat rows).
Proof.
  intros Henv HW Hids.
  destruct (embedding_rows _ dim k ids HW Hids) as (rows & Hrows & Hall).
  exists rows. split; [done|].
  cbn [forward]. by rewrite Henv, HW, Hrows.
Qed.

Lemma forward_hidden_layer (env : string → option (tensor F))
    (P : Params F) (d : Symbol) (hidden k : Z) x :
  let node := FullyConnected (Activation d "relu") hidden in
  forward env P d = Some (t_mat x) →
  Forall (λ r, len r = k) x →
  has_shape (weight P node) hidden k = true →
  len (bias P node) = hidden →
  forward env P node
  = Some (t_mat (hidden_layer (weight P node) (bias P node) <$> x))
  ∧ Forall (λ r, len r = hidden)
      (hidden_layer (weight P node) (bias P node) <$> x).
Proof.
  intros node Hd Hx HW Hb.
  destruct (has_shape_true _ _ _ HW) as [HWlen HWrows].
  split.
  - unfold node at 1. cbn [forward].
    change (String.eqb "relu" "relu") with true. cbv iota.
    rewrite Hd. fold node.
    assert (Hcheck : (len (weight P node) =? hidden)
                     && (len (bias P node) =? hidden)
                     && forallb (λ r, forallb (λ w, len w =? len r)
                                        (weight P node))
                          ((λ r : list F, relu <$> r) <$> x) = true).
    { apply andb_true_intro. split.
      - apply andb_true_intro. split; by apply Z.eqb_eq.
      - apply forallb_forall. intros r Hr.
        apply list_elem_of_In, list_elem_of_fmap in Hr as (r0 & -> & Hr0).
        apply forallb_forall. intros w Hw. apply Z.eqb_eq.
        apply list_elem_of_In in Hw.
        rewrite (proj1 (Forall_forall _ _) HWrows w Hw).
        unfold len. rewrite length_fmap.
        symmetry. apply (proj1 (Forall_forall _ _) Hx r0 Hr0). }
    rewrite Hcheck. do 2 f_equal.
    by rewrite <- list_fmap_compose.
  - apply Forall_fmap, Forall_forall. intros r _. simpl.
    unfold hidden_layer, fully_connected, len in *.
    rewrite length_zip_with, length_fmap. lia.
Qed.

Lemma forward_dot (env : string → option (tensor F)) (P : Params F)
    (lhs rhs score : Symbol) x y :
  forward env P lhs = Some (t_mat x) →
  forward env P rhs = Some (t_mat y) →
  same_shape x y = true →
  forward env P (LinearRegressionOutput
                   (Flatten (sum_axis (sym_mul lhs rhs) 1)) score)
  = Some (t_mat (zip_with (λ u v, [dot u v]) x y)).
Proof.
  intros Hl Hr Hsame. cbn [forward]. rewrite Hl, Hr, Hsame.
  change (1 =? 1) with true. cbv iota. by rewrite rows_dot.
Qed.

(** [X15] What [get_one_layer_mlp(hidden, k)] computes at prediction
    time: for each example of a batch, the dot product of the user's
    and the item's hidden vectors, each the embedding row passed
    through relu and then through its own fully connected layer of
    width [hidden]; the shapes fit whenever the parameters have the
    declared sizes.  [get_one_layer_dropout_mlp(hidden, k)] computes
    the same with the same parameters: its dropout nodes only act
    during training. *)
Theorem one_layer_mlp_dot_product (max_user max_item hidden k : Z)
    (env : string → option (tensor F)) (P : Params F)
    (users items : list Z) :
  let eu := Embedding (sym_Variable "user") max_user k in
  let ei := Embedding (sym_Variable "item") max_item k in
  let fu := FullyConnected (Activation eu "relu") hidden in
  let fi := FullyConnected (Activation ei "relu") hidden in
  env "user" = Some (t_ids users) →
  env "item" = Some (t_ids items) →
  length users = length items →
  has_shape (weight P eu) max_user k = true →
  has_shape (weight P ei) max_item k = true →
  has_shape (weight P fu) hidden k = true →
  has_shape (weight P fi) hidden k = true →
  len (bias P fu) = hidden →
  len (bias P fi) = hidden →
  Forall (λ u, 0 ≤ u < max_user) users →
  Forall (λ i, 0 ≤ i < max_item) items →
  ∃ us vs,
    Forall2 (λ u r, weight P eu !! Z.to_nat u = Some r ∧ len r = k) users us
    ∧ Forall2 (λ i r, weight P ei !! Z.to_nat i = Some r ∧ len r = k)
        items vs
    ∧ forward env P (get_one_layer_mlp max_user max_item hidden k)
      = Some (t_mat (zip_with
                       (λ u v, [dot (hidden_layer (weight P fu) (bias P fu) u)
                                    (hidden_layer (weight P fi) (bias P fi) v)])
                       us vs))
    ∧ forward env P (get_one_layer_dropout_mlp max_user max_item hidden k)
      = forward env P (get_one_layer_mlp max_user max_item hidden k).
Proof.
  intros eu ei fu fi Huser Hitem Hlen HWu HWi HFu HFi Hbu Hbi Husers Hitems.
  destruct (forward_embedding env P "user" max_user k users Huser HWu Husers)
    as (us & Hus & Heu).
  destruct (forward_embedding env P "item" max_item k items Hitem HWi Hitems)
    as (vs & Hvs & Hei).
  exists us, vs. split; [done|]. split; [done|]. split; [|done].
  assert (Hwu : Forall (λ r, len r = k) us).
  { clear -Hus. induction Hus as [|? ? ? ? [_ ?]]; by constructor. }
  assert (Hwv : Forall (λ r, len r = k) vs).
  { clear -Hvs. induction Hvs as [|? ? ? ? [_ ?]]; by constructor. }
  destruct (forward_hidden_layer env P eu hidden k us Heu Hwu HFu Hbu)
    as [Hfu Hhu].
  destruct (forward_hidden_layer env P ei hidden k vs Hei Hwv HFi Hbi)
    as [Hfi Hhv].
  unfold get_one_layer_mlp. fold eu ei. fold fu fi.
  rewrite (forward_dot env P fu fi _ _ _ Hfu Hfi).
  - by rewrite zip_with_fmap_l, zip_with_fmap_r.
  - apply (same_shape_width hidden); [done|done|].
    rewrite !length_fmap.
    rewrite <- (Forall2_length _ _ _ Hus), <- (Forall2_length _ _ _ Hvs).
    done.
Qed.

End HiddenLayerFacts.

Lemma one_layer_mlp_dot_product_witness :
  ∃ us vs,
    Forall2 (λ u r, [[1; -2]; [3; 4]]%float !! Z.to_nat u = Some r
                    ∧ len r = 2) [1; 0] us
    ∧ Forall2 (λ i r, [[5; 6]]%float !! Z.to_nat i = Some r
                      ∧ len r = 2) [0; 0] vs
    ∧ forward Samples.inputs MoreSamples.mlp_parameters
        (get_one_layer_mlp 2 1 1 2)
      = Some (t_mat (zip_with
                       (λ u v, [dot (hidden_layer [[1; 1]] [1] u)
                                    (hidden_layer [[1; 1]] [1] v)]%float)
                       us vs))
    ∧ forward Samples.inputs MoreSamples.mlp_parameters
        (get_one_layer_dropout_mlp 2 1 1 2)
      = forward Samples.inputs MoreSamples.mlp_parameters
          (get_one_layer_mlp 2 1 1 2).
Proof.
  refine (one_layer_mlp_dot_product 2 1 1 2 Samples.inputs
            MoreSamples.mlp_parameters [1; 0] [0; 0]
            eq_refl eq_refl eq_refl eq_refl eq_refl eq_refl eq_refl
            eq_refl eq_refl _ _).
  - repeat (constructor; [lia|]). constructor.
  - repeat (constructor; [lia|]). constructor.
Defined.

Example one_layer_mlp_forward_sample :
  forward Samples.inputs MoreSamples.mlp_parameters
    (get_one_layer_mlp 2 1 1 2)
  = Some (t_mat [[96]; [24]]%float).
Proof. reflexivity. Qed.

(** ** From the file to the prediction *)

Section Pipeline.
Context {conv : Conversions} {F : Type} {ops : FloatOps F}.

Lemma slice_Forall {A} (P : A → Prop) (l : list A) (a n : nat) :
  Forall P l → Forall P (slice l a n).
Proof. intros H. unfold slice. by apply Forall_take, Forall_drop. Qed.

(** [X16] The pieces fit together: when the ids of the dataset, as the
    arrays store them, are not negative and below [max_user] and
    [max_item], and the embedding matrices have the declared sizes,
    [plain_net] evaluates on every batch of a pass, and gives one
    prediction for each of the [batch_size] examples of the batch: no
    lookup leaves its table and no shapes disagree.  [store] is what
    the arrays do to an id (for float32, ids up to [2^24] are stored
    as they are). *)
Theorem plain_net_runs_on_every_batch (store : Z → Z) (self : DataIter)
    (max_user max_item k : Z) (P : Params F) :
  0 < batch_size self →
  Forall (λ r : record, 0 ≤ store r.1.1 < max_user
                        ∧ 0 ≤ store r.1.2 < max_item)
    (self_data self) →
  has_shape (weight P (Embedding (sym_Variable "user") max_user k))
    max_user k = true →
  has_shape (weight P (Embedding (sym_Variable "item") max_item k))
    max_item k = true →
  Forall (λ b, ∃ preds,
            forward (feed store b) P (plain_net max_user max_item k)
            = Some (t_mat preds)
            ∧ len preds = batch_size self
            ∧ Forall (λ p, length p = 1%nat) preds)
    (DataIter_iter self).1.
Proof.
  intros Hpos Hids HWu HWi.
  rewrite DataIter_iter_run by done. simpl.
  set (bs := Z.to_nat (batch_size self)).
  assert (Hn : (length (self_data self) `div` bs * bs
                ≤ length (self_data self))%nat)
    by (apply full_batches_bound; lia).
  apply Forall_fmap, Forall_fmap, Forall_forall. intros j Hj.
  apply list_elem_of_In, in_seq in Hj. simpl.
  set (chunk := slice (self_data self) (j * bs) bs).
  assert (Hchunk : Forall (λ r : record,
                     0 ≤ store r.1.1 < max_user
                     ∧ 0 ≤ store r.1.2 < max_item) chunk)
    by by apply slice_Forall.
  assert (Hlen : length chunk = bs).
  { unfold chunk, slice. rewrite length_take, length_drop. nia. }
  destruct (forward_embedding (feed store (batch_of chunk)) P "user"
              max_user k (store <$> chunk.*1.*1) eq_refl HWu)
    as (us & Hus & Heu).
  { apply Forall_fmap, Forall_fmap, Forall_fmap.
    eapply Forall_impl; [exact Hchunk|]. by intros r [? _]. }
  destruct (forward_embedding (feed store (batch_of chunk)) P "item"
              max_item k (store <$> chunk.*1.*2) eq_refl HWi)
    as (vs & Hvs & Hei).
  { apply Forall_fmap, Forall_fmap, Forall_fmap.
    eapply Forall_impl; [exact Hchunk|]. by intros r [_ ?]. }
  assert (Hlu : length us = bs)
    by (rewrite <- (Forall2_length _ _ _ Hus), !length_fmap; done).
  assert (Hlv : length vs = bs)
    by (rewrite <- (Forall2_length _ _ _ Hvs), !length_fmap; done).
  eexists. split; [|split].
  - unfold plain_net.
    apply (forward_dot (feed store (batch_of chunk)) P _ _
             (sym_Variable "score") us vs Heu Hei).
    apply (same_shape_width k); [| |lia].
    + clear -Hus. induction Hus as [|? ? ? ? [_ ?]]; by constructor.
    + clear -Hvs. induction Hvs as [|? ? ? ? [_ ?]]; by constructor.
  - unfold len. rewrite length_zip_with. unfold bs in *. lia.
  - clear. revert vs. induction us as [|u us IH]; intros [|v vs]; simpl;
      constructor; (done || apply IH).
Qed.

End Pipeline.

Lemma plain_net_runs_on_every_batch_witness :
  Forall (λ b, ∃ preds,
            forward (feed float32_of_Z b) MoreSamples.sized_embeddings
              (plain_net 197 378 2)
            = Some (t_mat preds)
            ∧ len preds = 2
            ∧ Forall (λ p, length p = 1%nat) preds)
    (DataIter_iter Samples.loaded).1.
Proof.
  refine (plain_net_runs_on_every_batch float32_of_Z Samples.loaded 197 378 2
            MoreSamples.sized_embeddings eq_refl _ eq_refl eq_refl).
  repeat (constructor; [vm_compute; repeat split; easy|]).
  constructor.
Defined.

Example pipeline_sample :
  (λ b, forward (feed float32_of_Z b) MoreSamples.sized_embeddings
          (plain_net 197 378 2))
  <$> (DataIter_iter Samples.loaded).1
  = [Some (t_mat [[11]; [11]]%float); Some (t_mat [[11]; [11]]%float)].
Proof. reflexivity. Qed.
